(** * Smart-farm sensor simulator: a shallow embedding

    The two scripts [simulator/sensor_simulator.py] and
    [simulator/sensor_simulator1.py] are embedded side by side; the
    parameter [script] selects between them wherever they differ (the
    optional [farmId] field, the name of the pH field, the form of the
    connection deadline).

    Conventions of the embedding.
    - A Python [float] is idealised as a real number; [math.sin] is [sin] and
      [math.pi] is [PI].  Python distinguishes [int] from [float], and the
      built-in [min]/[max] return one of their arguments unchanged, so
      numbers carry their Python type ([pynum]).
    - [random.random()] reads the next entry of a stream of draws supplied
      by the environment; [random.uniform a b] is [a + (b - a) * random()],
      as in the library.
    - [time.time()] and [datetime.now()] read the wall clock [now] of the
      world; the clock advances in [time.sleep].
    - The paho client is a log of the messages handed to [client.publish];
      its background thread is a time-stamped list of pending callbacks.
    - Console output is not modelled. *)

From Stdlib Require Import Reals Lra Lia ZArith List String Bool Permutation.
Import ListNotations.
Open Scope R_scope.

(** ** Python numbers *)

Inductive pynum : Type :=
| PyInt (z : Z)
| PyFloat (x : R).

Definition py_val (a : pynum) : R :=
  match a with
  | PyInt z => IZR z
  | PyFloat x => x
  end.

Definition is_float (a : pynum) : bool :=
  match a with
  | PyInt _ => false
  | PyFloat _ => true
  end.

(** Arithmetic with a float operand always yields a float. *)
Definition py_add_f (a : pynum) (x : R) : pynum := PyFloat (py_val a + x).
Definition py_sub_f (a : pynum) (x : R) : pynum := PyFloat (py_val a - x).

(** Built-in [min a b] and [max a b] with two positional arguments: the
    first argument is kept unless the second compares strictly below
    (resp. above) it. *)
Definition py_min (a b : pynum) : pynum :=
  if Rlt_dec (py_val b) (py_val a) then b else a.

Definition py_max (a b : pynum) : pynum :=
  if Rgt_dec (py_val b) (py_val a) then b else a.

(** Nearest integer, ties to even. *)
Definition round_half_even (y : R) : Z :=
  let f := Zfloor y in
  if Rlt_dec (y - IZR f) (1 / 2) then f
  else if Rgt_dec (y - IZR f) (1 / 2) then (f + 1)%Z
  else if Z.even f then f else (f + 1)%Z.

(** [round(x, 2)]: an [int] is returned as it is, a [float] is rounded to
    two decimals. *)
Definition round2 (x : R) : R := IZR (round_half_even (x * 100)) / 100.

Definition py_round2 (a : pynum) : pynum :=
  match a with
  | PyInt z => PyInt z
  | PyFloat x => PyFloat (round2 x)
  end.

(** Float remainder [x % w] as CPython computes it: C [fmod] (truncated
    division), then a correction when the signs of the remainder and of
    the divisor differ. *)
Definition Ztrunc (x : R) : Z :=
  if Rle_dec 0 x then Zfloor x else (- Zfloor (- x))%Z.

Definition fmod (x w : R) : R := x - w * IZR (Ztrunc (x / w)).

Definition Rltb (x y : R) : bool := if Rlt_dec x y then true else false.

Definition py_float_rem (x w : R) : R :=
  let m := fmod x w in
  if Req_dec_T m 0 then m
  else if Bool.eqb (Rltb w 0) (Rltb m 0) then m
  else m + w.

(** [random.uniform(a, b)] from one draw [u] of [random.random()]. *)
Definition uniform (a b u : R) : R := a + (b - a) * u.

(** ** JSON-like payloads and messages *)

Inductive jvalue : Type :=
| JStr (s : string)
| JNum (v : pynum)
| JTime (t : R).

Definition pydict := list (string * jvalue).

Fixpoint dict_get (k : string) (d : pydict) : option jvalue :=
  match d with
  | [] => None
  | (k', v) :: rest => if String.eqb k k' then Some v else dict_get k rest
  end.

(** The number stored under key [k], if there is one. *)
Definition measurement (k : string) (d : pydict) : option pynum :=
  match dict_get k d with
  | Some (JNum a) => Some a
  | _ => None
  end.

Record Message : Type := mkMessage {
  topic : string;
  payload : pydict;
  qos : Z;
  retain : bool
}.

(** ** Devices, environment and world *)

Record Device : Type := mkDevice {
  dev_id : string;
  dev_type : string;
  dev_location : string
}.

Inductive script : Type :=
| Sim    (* simulator/sensor_simulator.py *)
| Sim1.  (* simulator/sensor_simulator1.py *)

(** Callbacks the client's network thread delivers. *)
Inductive callback : Type :=
| OnConnect (rc : Z)
| OnDisconnect (rc : Z).

(** What the program cannot decide for itself. *)
Record Env : Type := mkEnv {
  draws : nat -> R;          (* successive results of random.random() *)
  connect_raises : bool;     (* client.connect raises an exception *)
  overshoot : nat -> R       (* extra time the i-th time.sleep takes *)
}.

(** The fields of a [SensorSimulator] instance. *)
Record SensorSimulator : Type := mkSim {
  connected : bool;
  base_temperature : pynum;
  base_humidity : pynum;
  soil_moisture : pynum;
  light_intensity : pynum;
  ph_level : pynum;
  start_time : R
}.

Record World : Type := mkWorld {
  sim : SensorSimulator;
  now : R;                          (* wall clock *)
  rng : nat;                        (* draws consumed so far *)
  naps : nat;                       (* calls of time.sleep so far *)
  loop_running : bool;              (* network thread started *)
  pending : list (R * callback);    (* callbacks not yet delivered *)
  sent : list Message               (* messages handed to client.publish *)
}.

Definition set_sim (s : SensorSimulator) (w : World) : World :=
  mkWorld s (now w) (rng w) (naps w) (loop_running w) (pending w) (sent w).

Definition set_connected (b : bool) (s : SensorSimulator) : SensorSimulator :=
  mkSim b (base_temperature s) (base_humidity s) (soil_moisture s)
        (light_intensity s) (ph_level s) (start_time s).

Definition set_soil_moisture (v : pynum) (s : SensorSimulator) : SensorSimulator :=
  mkSim (connected s) (base_temperature s) (base_humidity s) v
        (light_intensity s) (ph_level s) (start_time s).

Definition set_light_intensity (v : pynum) (s : SensorSimulator) : SensorSimulator :=
  mkSim (connected s) (base_temperature s) (base_humidity s) (soil_moisture s)
        v (ph_level s) (start_time s).

Definition set_ph_level (v : pynum) (s : SensorSimulator) : SensorSimulator :=
  mkSim (connected s) (base_temperature s) (base_humidity s) (soil_moisture s)
        (light_intensity s) v (start_time s).

(** [__init__]: the instance as constructed at wall-clock time [t]. *)
Definition init_sim (t : R) : SensorSimulator :=
  mkSim false (PyFloat 28) (PyFloat 65) (PyFloat 50) (PyFloat 10000)
        (PyFloat (13 / 2)) t.

Definition init_world (t : R) (cbs : list (R * callback)) : World :=
  mkWorld (init_sim t) t 0 0 false cbs [].

(** [random.random()]: the next draw, and the world with the cursor moved. *)
Definition random (env : Env) (w : World) : R * World :=
  (draws env (rng w),
   mkWorld (sim w) (now w) (S (rng w)) (naps w) (loop_running w) (pending w) (sent w)).

Definition client_publish (m : Message) (w : World) : World :=
  mkWorld (sim w) (now w) (rng w) (naps w) (loop_running w) (pending w)
          (sent w ++ [m]).

(** ** MQTT callbacks *)

Definition on_connect (rc : Z) (s : SensorSimulator) : SensorSimulator :=
  if Z.eqb rc 0 then set_connected true s else s.

Definition on_disconnect (rc : Z) (s : SensorSimulator) : SensorSimulator :=
  set_connected false s.

Definition run_callback (c : callback) (s : SensorSimulator) : SensorSimulator :=
  match c with
  | OnConnect rc => on_connect rc s
  | OnDisconnect rc => on_disconnect rc s
  end.

(** The network thread runs every callback that is due at time [t]. *)
Fixpoint deliver (t : R) (cbs : list (R * callback)) (s : SensorSimulator)
  : SensorSimulator * list (R * callback) :=
  match cbs with
  | [] => (s, [])
  | (tc, c) :: rest =>
      if Rle_dec tc t then deliver t rest (run_callback c s)
      else (s, cbs)
  end.

(** [time.sleep d]: the clock advances by [d] and the overshoot of this
    call; callbacks that became due meanwhile have run. *)
Definition sleep (env : Env) (d : R) (w : World) : World :=
  let t := now w + d + overshoot env (naps w) in
  if loop_running w then
    let '(s, cbs) := deliver t (pending w) (sim w) in
    mkWorld s t (rng w) (S (naps w)) true cbs (sent w)
  else
    mkWorld (sim w) t (rng w) (S (naps w)) false (pending w) (sent w).

(** ** Connection *)

Definition client_loop_start (w : World) : World :=
  let '(s, cbs) := deliver (now w) (pending w) (sim w) in
  mkWorld s (now w) (rng w) (naps w) true cbs (sent w).

Definition client_loop_stop (w : World) : World :=
  mkWorld (sim w) (now w) (rng w) (naps w) false (pending w) (sent w).

(** The condition of the waiting loop.  [sensor_simulator.py] keeps the
    start time and compares the elapsed time with the timeout;
    [sensor_simulator1.py] keeps the deadline. *)
Definition timeout : R := 10.

Definition still_waiting (v : script) (start : R) (w : World) : bool :=
  negb (connected (sim w)) &&
  match v with
  | Sim => Rltb (now w - start) timeout
  | Sim1 => Rltb (now w) (start + 10)
  end.

(** [while not self.connected and ...: time.sleep(0.1)], with fuel for the
    number of iterations; [None] when the fuel is used up. *)
Fixpoint wait_connected (fuel : nat) (v : script) (env : Env) (start : R)
         (w : World) : option World :=
  match fuel with
  | O => None
  | S fuel' =>
      if still_waiting v start w
      then wait_connected fuel' v env start (sleep env (1 / 10) w)
      else Some w
  end.

(** [connect]: the result and the world after it; [None] only when the
    fuel of the waiting loop is used up. *)
Definition connect (fuel : nat) (v : script) (env : Env) (w : World)
  : option (bool * World) :=
  if connect_raises env then Some (false, w)
  else
    let w1 := client_loop_start w in
    match wait_connected fuel v env (now w1) w1 with
    | None => None
    | Some w2 => Some (connected (sim w2), w2)
    end.

Definition disconnect (w : World) : World := client_loop_stop w.

(** ** Simulation logic *)

(** [hour_of_day] as a function of the elapsed seconds. *)
Definition hour_of_day (elapsed : R) : R := py_float_rem (elapsed / 60) 24.

Definition get_time_factor (w : World) : R :=
  let elapsed := now w - start_time (sim w) in
  hour_of_day elapsed.

(** The simulated hour in the spec's words, [(t / 60) mod 24], with the
    mathematical remainder [x mod m = x - m * floor (x / m)]. *)
Definition Rmod (x m : R) : R := x - m * IZR (Zfloor (x / m)).

Definition hour_of_day_spec (t : R) : R := Rmod (t / 60) 24.

Definition FARM_ID : jvalue := JNum (PyInt 1).

Definition timestamp (w : World) : string * jvalue :=
  ("timestamp"%string, JTime (now w)).

Definition with_farm (v : script) (d : pydict) : pydict :=
  match v with
  | Sim => d
  | Sim1 => ("farmId"%string, FARM_ID) :: d
  end.

Definition temp_variation (hour : R) : R := 5 * sin ((hour - 6) * PI / 12).

Definition simulate_dht22 (v : script) (env : Env) (device_id : string)
           (w : World) : pydict * World :=
  let hour := get_time_factor w in
  let tv := temp_variation hour in
  let '(u1, w1) := random env w in
  let temperature := py_add_f (py_add_f (base_temperature (sim w1)) tv)
                              (uniform (-1) 1 u1) in
  let '(u2, w2) := random env w1 in
  let humidity := py_add_f (py_sub_f (base_humidity (sim w2)) (tv * 2))
                           (uniform (-3) 3 u2) in
  let humidity := py_max (PyInt 30) (py_min (PyInt 95) humidity) in
  (with_farm v
     [ ("deviceId"%string, JStr device_id);
       ("sensorType"%string, JStr "DHT22");
       ("temperature"%string, JNum (py_round2 temperature));
       ("humidity"%string, JNum (py_round2 humidity));
       timestamp w2 ],
   w2).

(** The first half of [simulate_soil_moisture]: the decay, the irrigation
    event and its jump.  Returns whether the event fired and the world in
    which [soil_moisture] holds the value before clamping. *)
Definition soil_update (env : Env) (w : World) : bool * World :=
  let '(u1, w1) := random env w in
  let w2 := set_sim (set_soil_moisture
                       (py_sub_f (soil_moisture (sim w1))
                                 (uniform (5 / 100) (15 / 100) u1))
                       (sim w1)) w1 in
  let '(u2, w3) := random env w2 in
  if Rltb u2 (2 / 100) then
    let '(u3, w4) := random env w3 in
    (true,
     set_sim (set_soil_moisture
                (py_add_f (soil_moisture (sim w4)) (uniform 15 25 u3))
                (sim w4)) w4)
  else (false, w3).

Definition clamp_soil (a : pynum) : pynum :=
  py_max (PyInt 20) (py_min (PyInt 70) a).

Definition simulate_soil_moisture (v : script) (env : Env) (device_id : string)
           (w : World) : pydict * World :=
  let '(_, w1) := soil_update env w in
  let w2 := set_sim (set_soil_moisture (clamp_soil (soil_moisture (sim w1)))
                                       (sim w1)) w1 in
  (with_farm v
     [ ("deviceId"%string, JStr device_id);
       ("sensorType"%string, JStr "SOIL_MOISTURE");
       ("soilMoisture"%string, JNum (py_round2 (soil_moisture (sim w2))));
       timestamp w2 ],
   w2).

(** The [if]/[else] of [simulate_light_sensor]: the world in which
    [light_intensity] holds the value before [max(0, ...)]. *)
Definition light_update (env : Env) (w : World) : World :=
  let hour := get_time_factor w in
  if Rle_dec 6 hour then
    if Rle_dec hour 18 then
      let light_factor := sin ((hour - 6) * PI / 12) in
      let '(u, w1) := random env w in
      set_sim (set_light_intensity
                 (PyFloat (50000 * light_factor + uniform (-2000) 2000 u))
                 (sim w1)) w1
    else
      let '(u, w1) := random env w in
      set_sim (set_light_intensity (PyFloat (uniform 0 100 u)) (sim w1)) w1
  else
    let '(u, w1) := random env w in
    set_sim (set_light_intensity (PyFloat (uniform 0 100 u)) (sim w1)) w1.

Definition simulate_light_sensor (v : script) (env : Env) (device_id : string)
           (w : World) : pydict * World :=
  let w1 := light_update env w in
  let w2 := set_sim (set_light_intensity
                       (py_max (PyInt 0) (light_intensity (sim w1)))
                       (sim w1)) w1 in
  (with_farm v
     [ ("deviceId"%string, JStr device_id);
       ("sensorType"%string, JStr "LIGHT");
       ("lightIntensity"%string, JNum (py_round2 (light_intensity (sim w2))));
       timestamp w2 ],
   w2).

Definition clamp_ph (a : pynum) : pynum :=
  py_max (PyFloat (55 / 10)) (py_min (PyFloat (75 / 10)) a).

(** The name of the measurement field of a pH reading. *)
Definition ph_field (v : script) : string :=
  match v with
  | Sim => "ph"
  | Sim1 => "soilPH"
  end.

Definition simulate_ph_sensor (v : script) (env : Env) (device_id : string)
           (w : World) : pydict * World :=
  let '(u, w1) := random env w in
  let w2 := set_sim (set_ph_level
                       (py_add_f (ph_level (sim w1))
                                 (uniform (- (2 / 100)) (2 / 100) u))
                       (sim w1)) w1 in
  let w3 := set_sim (set_ph_level (clamp_ph (ph_level (sim w2))) (sim w2)) w2 in
  ([ ("deviceId"%string, JStr device_id);
     ("sensorType"%string, JStr "PH");
     (ph_field v, JNum (py_round2 (ph_level (sim w3))));
     timestamp w3 ],
   w3).

(** ** Publishing *)

Definition data_topic (device_id : string) : string :=
  ("sensor/" ++ device_id ++ "/data")%string.

Definition status_topic (device_id : string) : string :=
  ("device/" ++ device_id ++ "/status")%string.

Definition publish_sensor_data (device_id : string) (data : pydict)
           (w : World) : World :=
  client_publish (mkMessage (data_topic device_id) data 1 false) w.

Definition publish_device_status (v : script) (device_id status : string)
           (w : World) : World :=
  client_publish
    (mkMessage (status_topic device_id)
               (with_farm v
                  [ ("deviceId"%string, JStr device_id);
                    ("status"%string, JStr status);
                    timestamp w ])
               1 false)
    w.

(** ** The run loop *)

(** The [if]/[elif] chain on the device type; [None] is the final
    [else: continue]. *)
Definition simulate_device (v : script) (env : Env) (d : Device) (w : World)
  : option (pydict * World) :=
  let t := dev_type d in
  if String.eqb t "DHT22" then Some (simulate_dht22 v env (dev_id d) w)
  else if String.eqb t "SOIL_MOISTURE"
       then Some (simulate_soil_moisture v env (dev_id d) w)
  else if String.eqb t "LIGHT"
       then Some (simulate_light_sensor v env (dev_id d) w)
  else if String.eqb t "PH" then Some (simulate_ph_sensor v env (dev_id d) w)
  else None.

(** One pass of the body of [for device in devices]. *)
Definition tick_device (v : script) (env : Env) (w : World) (d : Device)
  : World :=
  match simulate_device v env d w with
  | Some (data, w') => publish_sensor_data (dev_id d) data w'
  | None => w
  end.

Definition tick_devices (v : script) (env : Env) (devices : list Device)
           (w : World) : World :=
  fold_left (tick_device v env) devices w.

(** One full iteration of [while True]: the pass over the devices and the
    sleep. *)
Definition iteration (v : script) (env : Env) (devices : list Device)
           (interval : R) (w : World) : World :=
  sleep env interval (tick_devices v env devices w).

Fixpoint iterations (n : nat) (v : script) (env : Env) (devices : list Device)
         (interval : R) (w : World) : World :=
  match n with
  | O => w
  | S n' => iterations n' v env devices interval
                       (iteration v env devices interval w)
  end.

Definition publish_all_status (v : script) (status : string)
           (devices : list Device) (w : World) : World :=
  fold_left (fun w d => publish_device_status v (dev_id d) status w) devices w.

(** Where the keyboard interrupt reaches the loop: after [full_ticks]
    complete iterations, when the first [done_devices] devices of the next
    iteration have been served. *)
Record Interrupt : Type := mkInterrupt {
  full_ticks : nat;
  done_devices : nat
}.

(** [run_simulation], for a run that is interrupted at [stop].  [None]
    only when the fuel of the waiting loop in [connect] is used up. *)
Definition run_simulation (fuel : nat) (v : script) (env : Env)
           (devices : list Device) (interval : R) (stop : Interrupt)
           (w : World) : option World :=
  match connect fuel v env w with
  | None => None
  | Some (false, w1) => Some w1
  | Some (true, w1) =>
      let w2 := publish_all_status v "ONLINE" devices w1 in
      let w3 := iterations (full_ticks stop) v env devices interval w2 in
      let w4 := tick_devices v env (firstn (done_devices stop) devices) w3 in
      let w5 := publish_all_status v "OFFLINE" devices w4 in
      Some (disconnect w5)
  end.

(** ** Ranges and frames *)

(** The declared physical range of a numeric field, by field name. *)
Definition field_ok (kv : string * jvalue) : Prop :=
  match kv with
  | (k, JNum a) =>
      if String.eqb k "humidity" then 30 <= py_val a <= 95
      else if String.eqb k "soilMoisture" then 20 <= py_val a <= 70
      else if String.eqb k "ph" then 55 / 10 <= py_val a <= 75 / 10
      else if String.eqb k "soilPH" then 55 / 10 <= py_val a <= 75 / 10
      else if String.eqb k "lightIntensity" then 0 <= py_val a
      else True
  | _ => True
  end.

Definition reading_ok (d : pydict) : Prop := Forall field_ok d.

Definition message_ok (m : Message) : Prop := reading_ok (payload m).

(** Everything of the world but the simulator instance and the cursor of
    the random stream. *)
Definition same_io (w w' : World) : Prop :=
  now w' = now w /\ naps w' = naps w /\ loop_running w' = loop_running w /\
  pending w' = pending w /\ sent w' = sent w.

(** ** Invariant of the simulation state *)

(** The bounded scalars of the simulation state. *)
Definition state_ok (s : SensorSimulator) : Prop :=
  20 <= py_val (soil_moisture s) <= 70 /\
  55 / 10 <= py_val (ph_level s) <= 75 / 10 /\
  0 <= py_val (light_intensity s).

(** The two base values, which no method assigns after [__init__]. *)
Definition calibrated (s : SensorSimulator) : Prop :=
  base_temperature s = PyFloat 28 /\ base_humidity s = PyFloat 65.

Definition sim_inv (s : SensorSimulator) : Prop := calibrated s /\ state_ok s.

(** Every draw of [random.random()] lies in [0, 1). *)
Definition draws_ok (env : Env) : Prop := forall i, 0 <= draws env i < 1.

(** ** Sample environments *)

(** No exception in [client.connect], exact sleeps, and the given draws. *)
Definition env_of_draws (f : nat -> R) : Env := mkEnv f false (fun _ => 0).

(** Every draw is 1/2: no irrigation event. *)
Definition env_quiet : Env := env_of_draws (fun _ => 1 / 2).

(** First draw 1/2, then 0: the irrigation event fires with the smallest
    jump. *)
Definition env_irrigate : Env :=
  env_of_draws (fun i => match i with O => 1 / 2 | S _ => 0 end).

(** ** Expectation over the noise draw *)

(** A finitely supported distribution: outcomes with their weights.
    [random.random()] has finitely many results, so the distribution of a
    draw is of this kind. *)
Definition dist (A : Type) : Type := list (R * A).

Fixpoint weight {A : Type} (d : dist A) : R :=
  match d with
  | [] => 0
  | (p, _) :: rest => p + weight rest
  end.

Fixpoint expect {A : Type} (f : A -> R) (d : dist A) : R :=
  match d with
  | [] => 0
  | (p, a) :: rest => p * f a + expect f rest
  end.

(** A probability distribution on draws in [0, 1). *)
Definition draw_dist (d : dist R) : Prop :=
  Forall (fun pa => 0 <= fst pa /\ 0 <= snd pa < 1) d /\ weight d = 1.

(** The light intensity published from world [w] when the draw is [u]. *)
Definition published_light (v : script) (w : World) (u : R) : R :=
  match measurement "lightIntensity"
          (fst (simulate_light_sensor v (env_of_draws (fun _ => u))
                                      "LIGHT-001" w)) with
  | Some a => py_val a
  | None => 0
  end.

(** ** Sample worlds *)

(** The world at wall-clock time [t] of a simulator constructed at time 0,
    before [connect]. *)
Definition world_at (t : R) : World := mkWorld (init_sim 0) t 0 0 false [] [].

(** As [world_at 0], but with another soil moisture. *)
Definition world_dry : World :=
  set_sim (set_soil_moisture (PyFloat 30) (init_sim 0)) (world_at 0).

(** A broker that accepts the connection at once. *)
Definition world_accepting : World := init_world 0 [(0, OnConnect 0)].

(** Two equally likely draws. *)
Definition fair_two : dist R := [(1 / 2, 1 / 4); (1 / 2, 3 / 4)].

(** The roster of [main] in [sensor_simulator.py]. *)
Definition roster : list Device :=
  [ mkDevice "DHT22-001" "DHT22" "Garden A";
    mkDevice "DHT22-002" "DHT22" "Garden B";
    mkDevice "SOIL-001" "SOIL_MOISTURE" "Garden A";
    mkDevice "SOIL-002" "SOIL_MOISTURE" "Garden B";
    mkDevice "LIGHT-001" "LIGHT" "Garden A";
    mkDevice "PH-001" "PH" "Garden A" ].

(** ** Reading the message log *)

(** The sensor kinds the run loop serves. *)
Definition known_kinds : list string :=
  ["DHT22"; "SOIL_MOISTURE"; "LIGHT"; "PH"]%string.

(** The device and the status of a status message: a message on the
    status topic of the device its payload names. *)
Definition status_of (m : Message) : option (string * string) :=
  match dict_get "deviceId" (payload m), dict_get "status" (payload m) with
  | Some (JStr i), Some (JStr s) =>
      if String.eqb (topic m) (status_topic i) then Some (i, s) else None
  | _, _ => None
  end.

(** The devices given [status], in the order of the log, with
    repetitions. *)
Fixpoint status_ids (status : string) (log : list Message) : list string :=
  match log with
  | [] => []
  | m :: rest =>
      match status_of m with
      | Some (i, s) =>
          if String.eqb s status then i :: status_ids status rest
          else status_ids status rest
      | None => status_ids status rest
      end
  end.

(** ** Assumptions on the environment of [connect] *)

(** [time.sleep] never returns early. *)
Definition overshoot_ok (env : Env) : Prop := forall i, 0 <= overshoot env i.

(** No callback reporting an accepted connection ([rc = 0]) is due before
    time [T]: until then the broker stays silent or answers with a
    non-zero return code. *)
Definition no_accept_before (T : R) (cbs : list (R * callback)) : Prop :=
  Forall (fun tc => snd tc = OnConnect 0 -> T <= fst tc) cbs.

(** A broker that refuses the connection after one second. *)
Definition world_refused : World := init_world 0 [(1, OnConnect 5)].

(** ** Further vocabulary for the run loop *)

(** The devices the [if]/[elif] chain serves. *)
Definition is_known (d : Device) : bool :=
  existsb (String.eqb (dev_type d)) known_kinds.

Definition served (devices : list Device) : list Device :=
  filter is_known devices.

Definition data_topics (devices : list Device) : list string :=
  map (fun d => data_topic (dev_id d)) (served devices).

(** The [farmId] a payload of the script carries, if any. *)
Definition farm_of (v : script) : option jvalue :=
  match v with
  | Sim => None
  | Sim1 => Some FARM_ID
  end.

(** The world with the [connected] flag overwritten, as a callback of the
    network thread leaves it. *)
Definition with_connected (b : bool) (w : World) : World :=
  set_sim (set_connected b (sim w)) w.

(** A broker whose acceptance arrives a quarter of a second after the
    simulator was constructed. *)
Definition world_slow_accept : World := init_world 0 [(1 / 4, OnConnect 0)].

(** * Properties *)

Ltac split_fields :=
  unfold reading_ok;
  repeat (apply Forall_cons);
  try apply Forall_nil;
  try exact I.


(** ** Numbers *)

Lemma round_half_even_cases (y : R) :
  round_half_even y = Zfloor y \/ round_half_even y = (Zfloor y + 1)%Z.
Proof.
  unfold round_half_even.
  destruct (Rlt_dec _ _); [now left|].
  destruct (Rgt_dec _ _); [now right|].
  destruct (Z.even _); [now left | now right].
Qed.

Lemma round_half_even_near (y : R) :
  y - 1 / 2 <= IZR (round_half_even y) <= y + 1 / 2.
Proof.
  pose proof (Zfloor_bound y) as Hb.
  unfold round_half_even.
  destruct (Rlt_dec _ _) as [Hlt | Hnlt].
  - lra.
  - destruct (Rgt_dec _ _) as [Hgt | Hngt].
    + rewrite plus_IZR. lra.
    + destruct (Z.even _); [|rewrite plus_IZR]; lra.
Qed.

(** Rounding to nearest never crosses an integer. *)
Lemma round_half_even_ge (n : Z) (y : R) :
  IZR n <= y -> (n <= round_half_even y)%Z.
Proof.
  intros H. pose proof (round_half_even_near y) as [Hlo _].
  assert (Hlt : IZR (n - 1) < IZR (round_half_even y)).
  { rewrite minus_IZR. lra. }
  apply lt_IZR in Hlt. lia.
Qed.

Lemma round_half_even_le (n : Z) (y : R) :
  y <= IZR n -> (round_half_even y <= n)%Z.
Proof.
  intros H. pose proof (round_half_even_near y) as [_ Hhi].
  assert (Hlt : IZR (round_half_even y) < IZR (n + 1)).
  { rewrite plus_IZR. lra. }
  apply lt_IZR in Hlt. lia.
Qed.

Lemma round_half_even_mono (x y : R) :
  x <= y -> (round_half_even x <= round_half_even y)%Z.
Proof.
  intros Hxy.
  pose proof (Zfloor_le x y Hxy) as Hfl.
  destruct (Z.eq_dec (Zfloor x) (Zfloor y)) as [Heq | Hne].
  - unfold round_half_even. rewrite Heq.
    destruct (Rlt_dec (x - _) _) as [Hx | Hx];
      destruct (Rlt_dec (y - _) _) as [Hy | Hy]; try lia; try lra.
    + destruct (Rgt_dec (y - _) _); [lia|]. destruct (Z.even _); lia.
    + destruct (Rgt_dec (x - _) _) as [Hx' | Hx'];
        destruct (Rgt_dec (y - _) _) as [Hy' | Hy']; try lia; try lra.
      destruct (Z.even _); lia.
  - destruct (round_half_even_cases x) as [-> | ->].
    + pose proof (round_half_even_ge (Zfloor y) y
                    (proj1 (Zfloor_bound y))). lia.
    + pose proof (round_half_even_ge (Zfloor y) y
                    (proj1 (Zfloor_bound y))). lia.
Qed.

Lemma round2_mono (x y : R) : x <= y -> round2 x <= round2 y.
Proof.
  intros H. unfold round2.
  assert (Hz : (round_half_even (x * 100) <= round_half_even (y * 100))%Z)
    by (apply round_half_even_mono; lra).
  apply IZR_le in Hz. lra.
Qed.

(** A bound that is a whole number of hundredths survives [round2]. *)
Lemma round2_ge (n : Z) (x : R) : IZR n / 100 <= x -> IZR n / 100 <= round2 x.
Proof.
  intros H. unfold round2.
  assert (Hz : (n <= round_half_even (x * 100))%Z)
    by (apply round_half_even_ge; lra).
  apply IZR_le in Hz. lra.
Qed.

Lemma round2_le (n : Z) (x : R) : x <= IZR n / 100 -> round2 x <= IZR n / 100.
Proof.
  intros H. unfold round2.
  assert (Hz : (round_half_even (x * 100) <= n)%Z)
    by (apply round_half_even_le; lra).
  apply IZR_le in Hz. lra.
Qed.

Lemma py_round2_mono (a b : pynum) :
  is_float a = is_float b -> py_val a <= py_val b ->
  py_val (py_round2 a) <= py_val (py_round2 b).
Proof.
  destruct a, b; simpl; intros Hk H; try discriminate; auto using round2_mono.
Qed.

Lemma py_round2_ge (n : Z) (a : pynum) :
  IZR n / 100 <= py_val a -> IZR n / 100 <= py_val (py_round2 a).
Proof. destruct a; simpl; auto using round2_ge. Qed.

Lemma py_round2_le (n : Z) (a : pynum) :
  py_val a <= IZR n / 100 -> py_val (py_round2 a) <= IZR n / 100.
Proof. destruct a; simpl; auto using round2_le. Qed.

Lemma py_round2_float (a : pynum) : is_float (py_round2 a) = is_float a.
Proof. now destruct a. Qed.

(** The clamp idiom [max(lo, min(hi, x))]. *)
Lemma clamp_bounds (lo hi x : pynum) :
  py_val lo <= py_val hi ->
  py_val lo <= py_val (py_max lo (py_min hi x)) <= py_val hi.
Proof.
  intros H. unfold py_max, py_min.
  destruct (Rlt_dec (py_val x) (py_val hi)) as [H1 | H1].
  - destruct (Rgt_dec (py_val x) (py_val lo)); lra.
  - destruct (Rgt_dec (py_val hi) (py_val lo)); lra.
Qed.

Lemma clamp_id (lo hi x : pynum) :
  py_val lo < py_val x < py_val hi ->
  py_max lo (py_min hi x) = x.
Proof.
  intros [H1 H2]. unfold py_max, py_min.
  destruct (Rlt_dec (py_val x) (py_val hi)); [|lra].
  destruct (Rgt_dec (py_val x) (py_val lo)); [reflexivity | lra].
Qed.

Lemma clamp_val (lo hi x : pynum) :
  py_val lo <= py_val hi ->
  py_val (py_max lo (py_min hi x)) =
  Rmax (py_val lo) (Rmin (py_val hi) (py_val x)).
Proof.
  intros H. unfold py_max, py_min, Rmax, Rmin.
  destruct (Rlt_dec (py_val x) (py_val hi)) as [H1 | H1];
    destruct (Rle_dec (py_val hi) (py_val x)) as [H2 | H2]; try lra.
  - destruct (Rgt_dec (py_val x) (py_val lo));
      destruct (Rle_dec (py_val lo) (py_val x)); lra.
  - destruct (Rgt_dec (py_val hi) (py_val lo));
      destruct (Rle_dec (py_val lo) (py_val hi)); lra.
Qed.

Lemma py_max_lower (lo x : pynum) : py_val lo <= py_val (py_max lo x).
Proof. unfold py_max. destruct (Rgt_dec _ _); lra. Qed.

Lemma uniform_bounds (a b u : R) :
  a <= b -> 0 <= u < 1 -> a <= uniform a b u <= b.
Proof. intros Hab [H0 H1]. unfold uniform. split; nra. Qed.

(** ** The simulated clock *)

Lemma Zfloor_opp_int (z : Z) : Zfloor (- IZR z) = (- z)%Z.
Proof. apply Zfloor_eq. rewrite opp_IZR. lra. Qed.

Lemma Zfloor_opp_nonint (q : R) :
  IZR (Zfloor q) <> q -> Zfloor (- q) = (- Zfloor q - 1)%Z.
Proof.
  intros Hne. pose proof (Zfloor_bound q) as Hb.
  apply Zfloor_eq. rewrite minus_IZR, opp_IZR. lra.
Qed.

(** For a positive divisor Python's float remainder is the mathematical
    one. *)
Lemma py_float_rem_pos (x m : R) : 0 < m -> py_float_rem x m = Rmod x m.
Proof.
  intros Hm. unfold py_float_rem, Rmod, fmod, Ztrunc.
  pose proof (Zfloor_bound (x / m)) as Hb.
  assert (Hx : x = x / m * m) by (field; lra).
  assert (Hnw : Rltb m 0 = false).
  { unfold Rltb. destruct (Rlt_dec m 0); [lra | reflexivity]. }
  rewrite Hnw.
  destruct (Rle_dec 0 (x / m)) as [Hq | Hq].
  - destruct (Req_dec_T _ 0); [reflexivity|].
    unfold Rltb. destruct (Rlt_dec _ 0) as [Hneg | _]; [|reflexivity].
    exfalso. nra.
  - destruct (Req_dec (IZR (Zfloor (x / m))) (x / m)) as [Hint | Hni].
    + replace (- (x / m)) with (- IZR (Zfloor (x / m))) by lra.
      rewrite Zfloor_opp_int, Z.opp_involutive.
      destruct (Req_dec_T _ 0); reflexivity || (exfalso; nra).
    + rewrite (Zfloor_opp_nonint _ Hni).
      replace (- (- Zfloor (x / m) - 1))%Z with (Zfloor (x / m) + 1)%Z by lia.
      rewrite plus_IZR.
      destruct (Req_dec_T _ 0) as [H0 | H0].
      * exfalso. nra.
      * unfold Rltb. destruct (Rlt_dec _ 0) as [_ | Hpos]; simpl; [lra|].
        exfalso. nra.
Qed.

Lemma Rmod_bounds (x m : R) : 0 < m -> 0 <= Rmod x m < m.
Proof.
  intros Hm. unfold Rmod. pose proof (Zfloor_bound (x / m)) as Hb.
  assert (Hx : x = x / m * m) by (field; lra). split; nra.
Qed.

Lemma Rmod_period (x m : R) : 0 < m -> Rmod (x + m) m = Rmod x m.
Proof.
  intros Hm. unfold Rmod.
  replace ((x + m) / m) with (x / m + 1) by (field; lra).
  pose proof (Zfloor_bound (x / m)) as Hb.
  rewrite (Zfloor_eq (Zfloor (x / m) + 1) (x / m + 1)).
  - rewrite plus_IZR. lra.
  - rewrite plus_IZR. lra.
Qed.

Lemma hour_of_day_eq_spec (t : R) : hour_of_day t = hour_of_day_spec t.
Proof. unfold hour_of_day, hour_of_day_spec. apply py_float_rem_pos. lra. Qed.

Lemma hour_of_day_range (t : R) : 0 <= hour_of_day t < 24.
Proof. rewrite hour_of_day_eq_spec. apply Rmod_bounds. lra. Qed.

Lemma hour_of_day_period (t : R) : hour_of_day (t + 24 * 60) = hour_of_day t.
Proof.
  rewrite !hour_of_day_eq_spec. unfold hour_of_day_spec.
  replace ((t + 24 * 60) / 60) with (t / 60 + 24) by field.
  apply Rmod_period. lra.
Qed.

Lemma hour_of_day_first_day (t : R) :
  0 <= t < 24 * 60 -> hour_of_day t = t / 60.
Proof.
  intros Ht. rewrite hour_of_day_eq_spec. unfold hour_of_day_spec, Rmod.
  rewrite (Zfloor_eq 0 (t / 60 / 24)); [simpl; lra|].
  simpl. split.
  - apply Rmult_le_pos; [apply Rmult_le_pos|]; lra.
  - replace (t / 60 / 24) with (t / 1440) by field. lra.
Qed.

(** C5. For every world, hence for every elapsed wall-clock time [t] in
    seconds since the generator was constructed, [get_time_factor] returns
    [(t / 60) mod 24]; the result lies in [0, 24) and repeats after
    [24 * 60] seconds (24 minutes of real time are 24 simulated hours). *)
Theorem get_time_factor_spec (w : World) :
  let t := now w - start_time (sim w) in
  get_time_factor w = hour_of_day_spec t /\
  0 <= get_time_factor w < 24 /\
  hour_of_day (t + 24 * 60) = get_time_factor w.
Proof.
  cbv zeta. unfold get_time_factor.
  split; [apply hour_of_day_eq_spec|].
  split; [apply hour_of_day_range | apply hour_of_day_period].
Qed.

(** ** Ranges of the published measurements *)

Lemma with_farm_ok (v : script) (d : pydict) :
  reading_ok d -> reading_ok (with_farm v d).
Proof.
  intros H. destruct v; simpl; [exact H|].
  constructor; [exact I | exact H].
Qed.

Lemma humidity_clamped (a : pynum) :
  30 <= py_val (py_round2 (py_max (PyInt 30) (py_min (PyInt 95) a))) <= 95.
Proof.
  pose proof (clamp_bounds (PyInt 30) (PyInt 95) a) as H. simpl in H.
  split.
  - replace 30 with (IZR 3000 / 100) by lra. apply py_round2_ge. lra.
  - replace 95 with (IZR 9500 / 100) by lra. apply py_round2_le. lra.
Qed.

Lemma soil_clamped (a : pynum) : 20 <= py_val (clamp_soil a) <= 70.
Proof.
  pose proof (clamp_bounds (PyInt 20) (PyInt 70) a) as H. simpl in H.
  unfold clamp_soil. lra.
Qed.

Lemma soil_clamped_round (a : pynum) :
  20 <= py_val (py_round2 (clamp_soil a)) <= 70.
Proof.
  pose proof (soil_clamped a) as H. split.
  - replace 20 with (IZR 2000 / 100) by lra. apply py_round2_ge. lra.
  - replace 70 with (IZR 7000 / 100) by lra. apply py_round2_le. lra.
Qed.

Lemma ph_clamped (a : pynum) : 55 / 10 <= py_val (clamp_ph a) <= 75 / 10.
Proof.
  pose proof (clamp_bounds (PyFloat (55 / 10)) (PyFloat (75 / 10)) a) as H.
  simpl in H. unfold clamp_ph. lra.
Qed.

Lemma ph_clamped_round (a : pynum) :
  55 / 10 <= py_val (py_round2 (clamp_ph a)) <= 75 / 10.
Proof.
  pose proof (ph_clamped a) as H. split.
  - replace (55 / 10) with (IZR 550 / 100) by lra. apply py_round2_ge. lra.
  - replace (75 / 10) with (IZR 750 / 100) by lra. apply py_round2_le. lra.
Qed.

Lemma light_clamped_round (a : pynum) :
  0 <= py_val (py_round2 (py_max (PyInt 0) a)).
Proof.
  pose proof (py_max_lower (PyInt 0) a) as H. simpl in H.
  replace 0 with (IZR 0 / 100) by lra. apply py_round2_ge. lra.
Qed.

Lemma light_update_eq (env : Env) (w : World) :
  exists x, light_update env w
            = mkWorld (set_light_intensity (PyFloat x) (sim w)) (now w)
                      (S (rng w)) (naps w) (loop_running w) (pending w) (sent w).
Proof.
  unfold light_update. cbn [random].
  destruct (Rle_dec 6 _); [destruct (Rle_dec _ 18)|]; eexists; reflexivity.
Qed.

Lemma light_update_day (env : Env) (w : World) :
  6 <= get_time_factor w <= 18 ->
  light_intensity (sim (light_update env w))
  = PyFloat (50000 * sin ((get_time_factor w - 6) * PI / 12)
             + uniform (-2000) 2000 (draws env (rng w))).
Proof.
  intros [H6 H18]. unfold light_update. cbn [random].
  destruct (Rle_dec 6 _); [|lra]. destruct (Rle_dec _ 18); [|lra]. reflexivity.
Qed.

Lemma light_update_night (env : Env) (w : World) :
  get_time_factor w < 6 \/ 18 < get_time_factor w ->
  light_intensity (sim (light_update env w))
  = PyFloat (uniform 0 100 (draws env (rng w))).
Proof.
  intros H. unfold light_update. cbn [random].
  destruct (Rle_dec 6 _); [destruct (Rle_dec _ 18)|]; try reflexivity.
  exfalso. lra.
Qed.

Lemma simulate_dht22_ok (v : script) (env : Env) (id : string) (w : World) :
  reading_ok (fst (simulate_dht22 v env id w)).
Proof.
  unfold simulate_dht22. cbn [random fst].
  apply with_farm_ok. split_fields.
  cbn. apply humidity_clamped.
Qed.

Lemma simulate_soil_moisture_ok (v : script) (env : Env) (id : string)
      (w : World) :
  reading_ok (fst (simulate_soil_moisture v env id w)).
Proof.
  unfold simulate_soil_moisture.
  destruct (soil_update env w) as [fired w1]. cbn [fst].
  apply with_farm_ok. split_fields.
  cbn. apply soil_clamped_round.
Qed.

Lemma simulate_light_sensor_ok (v : script) (env : Env) (id : string)
      (w : World) :
  reading_ok (fst (simulate_light_sensor v env id w)).
Proof.
  unfold simulate_light_sensor. cbn [fst].
  apply with_farm_ok. split_fields.
  cbn. apply light_clamped_round.
Qed.

Lemma simulate_ph_sensor_ok (v : script) (env : Env) (id : string) (w : World) :
  reading_ok (fst (simulate_ph_sensor v env id w)).
Proof.
  unfold simulate_ph_sensor. cbn [random fst].
  split_fields.
  destruct v; cbn; apply ph_clamped_round.
Qed.

(** ** What a simulation step leaves alone *)

Lemma same_io_refl (w : World) : same_io w w.
Proof. repeat split. Qed.

Lemma soil_update_io (env : Env) (w : World) :
  same_io w (snd (soil_update env w)).
Proof.
  unfold soil_update. cbn [random].
  destruct (Rltb _ _); cbn; repeat split.
Qed.

Lemma simulate_dht22_io v env id w : same_io w (snd (simulate_dht22 v env id w)).
Proof. unfold simulate_dht22. cbn. repeat split. Qed.

Lemma simulate_soil_moisture_io v env id w :
  same_io w (snd (simulate_soil_moisture v env id w)).
Proof.
  unfold simulate_soil_moisture.
  pose proof (soil_update_io env w) as H.
  destruct (soil_update env w) as [fired w1]. cbn in *. exact H.
Qed.

Lemma simulate_light_sensor_io v env id w :
  same_io w (snd (simulate_light_sensor v env id w)).
Proof.
  unfold simulate_light_sensor.
  destruct (light_update_eq env w) as [x ->]. cbn. repeat split.
Qed.

Lemma simulate_ph_sensor_io v env id w :
  same_io w (snd (simulate_ph_sensor v env id w)).
Proof. unfold simulate_ph_sensor. cbn. repeat split. Qed.

Lemma simulate_device_io v env d w r w' :
  simulate_device v env d w = Some (r, w') -> same_io w w'.
Proof.
  unfold simulate_device. intros H.
  repeat match type of H with
         | (if ?c then _ else _) = _ => destruct c
         end; try discriminate;
    apply (f_equal (option_map snd)) in H; cbn [option_map snd] in H;
    injection H as <-.
  - exact (simulate_dht22_io v env (dev_id d) w).
  - exact (simulate_soil_moisture_io v env (dev_id d) w).
  - exact (simulate_light_sensor_io v env (dev_id d) w).
  - exact (simulate_ph_sensor_io v env (dev_id d) w).
Qed.

Lemma simulate_device_ok v env d w r w' :
  simulate_device v env d w = Some (r, w') -> reading_ok r.
Proof.
  unfold simulate_device. intros H.
  repeat match type of H with
         | (if ?c then _ else _) = _ => destruct c
         end; try discriminate;
    apply (f_equal (option_map fst)) in H; cbn [option_map fst] in H;
    injection H as <-.
  - exact (simulate_dht22_ok v env (dev_id d) w).
  - exact (simulate_soil_moisture_ok v env (dev_id d) w).
  - exact (simulate_light_sensor_ok v env (dev_id d) w).
  - exact (simulate_ph_sensor_ok v env (dev_id d) w).
Qed.

(** ** Messages of a pass over the devices *)

Lemma sleep_sent env d w : sent (sleep env d w) = sent w.
Proof.
  unfold sleep. destruct (loop_running w); [|reflexivity].
  destruct (deliver _ _ _). reflexivity.
Qed.

Section Log.
Variables (v : script) (env : Env) (P : Message -> Prop).
Hypothesis data_P :
  forall d w r w', simulate_device v env d w = Some (r, w') ->
                   P (mkMessage (data_topic (dev_id d)) r 1 false).

Lemma tick_device_log w d :
  exists msgs, sent (tick_device v env w d) = (sent w ++ msgs)%list /\
               Forall P msgs.
Proof.
  unfold tick_device.
  destruct (simulate_device v env d w) as [[r w'] |] eqn:E.
  - exists [mkMessage (data_topic (dev_id d)) r 1 false].
    destruct (simulate_device_io _ _ _ _ _ _ E) as (_ & _ & _ & _ & Hs).
    cbn. rewrite Hs. split; [reflexivity|].
    constructor; [exact (data_P _ _ _ _ E) | constructor].
  - exists []. rewrite app_nil_r. split; [reflexivity | constructor].
Qed.

Lemma tick_devices_log devices w :
  exists msgs, sent (tick_devices v env devices w) = (sent w ++ msgs)%list /\
               Forall P msgs.
Proof.
  unfold tick_devices. revert w.
  induction devices as [| d ds IH]; intros w; cbn [fold_left].
  - exists []. now rewrite app_nil_r.
  - destruct (tick_device_log w d) as (m1 & E1 & O1).
    destruct (IH (tick_device v env w d)) as (m2 & E2 & O2).
    exists (m1 ++ m2)%list. rewrite E2, E1, app_assoc. split; [reflexivity|].
    apply Forall_app. now split.
Qed.

Lemma iterations_log n devices interval w :
  exists msgs,
    sent (iterations n v env devices interval w) = (sent w ++ msgs)%list /\
    Forall P msgs.
Proof.
  revert w. induction n as [| n IH]; intros w; cbn [iterations].
  - exists []. now rewrite app_nil_r.
  - destruct (tick_devices_log devices w) as (m1 & E1 & O1).
    destruct (IH (iteration v env devices interval w)) as (m2 & E2 & O2).
    exists (m1 ++ m2)%list. rewrite E2. unfold iteration.
    rewrite sleep_sent, E1, app_assoc. split; [reflexivity|].
    apply Forall_app. now split.
Qed.
End Log.

Lemma iterations_sent n v env devices interval w :
  exists msgs, sent (iterations n v env devices interval w) = (sent w ++ msgs)%list /\
               Forall message_ok msgs.
Proof.
  apply iterations_log. intros d w0 r w' E.
  exact (simulate_device_ok _ _ _ _ _ _ E).
Qed.

Lemma dht22_humidity v env id w :
  exists a, measurement "humidity" (fst (simulate_dht22 v env id w)) = Some a /\
            30 <= py_val a <= 95.
Proof.
  unfold simulate_dht22. cbn [random fst].
  eexists. split; [destruct v; reflexivity | apply humidity_clamped].
Qed.

Lemma soil_moisture_reading v env id w :
  let r := simulate_soil_moisture v env id w in
  exists a, measurement "soilMoisture" (fst r) = Some a /\
            a = py_round2 (soil_moisture (sim (snd r))) /\
            20 <= py_val a <= 70 /\
            20 <= py_val (soil_moisture (sim (snd r))) <= 70.
Proof.
  unfold simulate_soil_moisture.
  destruct (soil_update env w) as [fired w1]. cbn [fst snd].
  eexists. split; [destruct v; reflexivity|].
  cbn. split; [reflexivity|].
  split; [apply soil_clamped_round | apply soil_clamped].
Qed.

Lemma light_reading v env id w :
  let r := simulate_light_sensor v env id w in
  exists a, measurement "lightIntensity" (fst r) = Some a /\
            a = py_round2 (light_intensity (sim (snd r))) /\
            0 <= py_val a /\
            0 <= py_val (light_intensity (sim (snd r))).
Proof.
  unfold simulate_light_sensor. cbn [fst snd].
  eexists. split; [destruct v; reflexivity|].
  cbn. split; [reflexivity|].
  split; [apply light_clamped_round|].
  pose proof (py_max_lower (PyInt 0)) as H. simpl in H. apply H.
Qed.

Lemma ph_reading v env id w :
  let r := simulate_ph_sensor v env id w in
  exists a, measurement (ph_field v) (fst r) = Some a /\
            a = py_round2 (ph_level (sim (snd r))) /\
            55 / 10 <= py_val a <= 75 / 10 /\
            55 / 10 <= py_val (ph_level (sim (snd r))) <= 75 / 10.
Proof.
  unfold simulate_ph_sensor. cbn [random fst snd].
  eexists. split; [destruct v; reflexivity|].
  cbn. split; [reflexivity|].
  split; [apply ph_clamped_round | apply ph_clamped].
Qed.

(** C1. In every tick and for every device the published reading keeps
    each bounded measurement inside its declared range: every message a
    run of [n] iterations hands to the client has humidity in [30, 95],
    soil moisture in [20, 70], pH in [5.5, 7.5] and light intensity at
    least 0; each kind of reading does carry its measurement, and the
    state scalar it was rounded from is in range after the update, from
    whatever state and with whatever draws the step starts. *)
Theorem readings_in_range (v : script) (env : Env) (devices : list Device)
        (interval : R) (n : nat) (w : World) (id : string) :
  (exists msgs,
      sent (iterations n v env devices interval w) = (sent w ++ msgs)%list /\
      Forall message_ok msgs) /\
  (exists a, measurement "humidity" (fst (simulate_dht22 v env id w)) = Some a /\
             30 <= py_val a <= 95) /\
  (let r := simulate_soil_moisture v env id w in
   exists a, measurement "soilMoisture" (fst r) = Some a /\
             a = py_round2 (soil_moisture (sim (snd r))) /\
             20 <= py_val a <= 70 /\
             20 <= py_val (soil_moisture (sim (snd r))) <= 70) /\
  (let r := simulate_light_sensor v env id w in
   exists a, measurement "lightIntensity" (fst r) = Some a /\
             a = py_round2 (light_intensity (sim (snd r))) /\
             0 <= py_val a /\
             0 <= py_val (light_intensity (sim (snd r)))) /\
  (let r := simulate_ph_sensor v env id w in
   exists a, measurement (ph_field v) (fst r) = Some a /\
             a = py_round2 (ph_level (sim (snd r))) /\
             55 / 10 <= py_val a <= 75 / 10 /\
             55 / 10 <= py_val (ph_level (sim (snd r))) <= 75 / 10).
Proof.
  split; [apply iterations_sent|].
  split; [apply dht22_humidity|].
  split; [apply soil_moisture_reading|].
  split; [apply light_reading | apply ph_reading].
Qed.

(** ** Effect of each step on the simulator instance *)

Lemma simulate_dht22_sim v env id w : sim (snd (simulate_dht22 v env id w)) = sim w.
Proof. reflexivity. Qed.

Lemma soil_update_sim env w :
  exists y, sim (snd (soil_update env w)) = set_soil_moisture y (sim w).
Proof.
  unfold soil_update. cbn [random].
  destruct (Rltb _ _); cbn; eexists; reflexivity.
Qed.

Lemma simulate_soil_moisture_sim v env id w :
  exists x, sim (snd (simulate_soil_moisture v env id w))
            = set_soil_moisture x (sim w) /\ 20 <= py_val x <= 70.
Proof.
  unfold simulate_soil_moisture.
  destruct (soil_update_sim env w) as [y Hy].
  destruct (soil_update env w) as [fired w1]. cbn [snd] in *.
  exists (clamp_soil (soil_moisture (sim w1))). split.
  - cbn. rewrite Hy. reflexivity.
  - apply soil_clamped.
Qed.

Lemma simulate_light_sensor_sim v env id w :
  exists x, sim (snd (simulate_light_sensor v env id w))
            = set_light_intensity x (sim w) /\ 0 <= py_val x.
Proof.
  unfold simulate_light_sensor.
  destruct (light_update_eq env w) as [x ->]. cbn [snd].
  eexists. split; [reflexivity|].
  pose proof (py_max_lower (PyInt 0)) as H. simpl in H. apply H.
Qed.

Lemma simulate_ph_sensor_sim v env id w :
  exists x, sim (snd (simulate_ph_sensor v env id w))
            = set_ph_level x (sim w) /\ 55 / 10 <= py_val x <= 75 / 10.
Proof.
  unfold simulate_ph_sensor. cbn [random snd].
  eexists. split; [reflexivity | apply ph_clamped].
Qed.

Lemma deliver_sim t cbs s :
  exists b, fst (deliver t cbs s) = set_connected b s.
Proof.
  revert s. induction cbs as [| [tc c] rest IH]; intros s; cbn [deliver].
  - exists (connected s). now destruct s.
  - destruct (Rle_dec tc t).
    + destruct (IH (run_callback c s)) as [b Hb]. exists b. rewrite Hb.
      destruct c as [rc | rc]; cbn; unfold on_connect, on_disconnect;
        try destruct (Z.eqb rc 0); reflexivity.
    + exists (connected s). now destruct s.
Qed.

Lemma sleep_sim env d w : exists b, sim (sleep env d w) = set_connected b (sim w).
Proof.
  unfold sleep. destruct (loop_running w).
  - destruct (deliver_sim (now w + d + overshoot env (naps w))
                          (pending w) (sim w)) as [b Hb].
    destruct (deliver _ _ _) as [s cbs]. exists b. exact Hb.
  - exists (connected (sim w)). cbn. now destruct (sim w).
Qed.

Lemma sim_inv_init t : sim_inv (init_sim t).
Proof. unfold sim_inv, calibrated, state_ok. cbn. repeat split; lra. Qed.

Lemma sim_inv_connected b s : sim_inv s -> sim_inv (set_connected b s).
Proof. intros H. exact H. Qed.

Lemma simulate_device_inv v env d w r w' :
  simulate_device v env d w = Some (r, w') -> sim_inv (sim w) -> sim_inv (sim w').
Proof.
  unfold simulate_device. intros H Hinv.
  repeat match type of H with
         | (if ?c then _ else _) = _ => destruct c
         end; try discriminate;
    apply (f_equal (option_map snd)) in H; cbn [option_map snd] in H;
    injection H as H; rewrite <- H.
  - exact Hinv.
  - change (sim_inv (sim (snd (simulate_soil_moisture v env (dev_id d) w)))).
    destruct (simulate_soil_moisture_sim v env (dev_id d) w) as (x & -> & Hx).
    unfold sim_inv, calibrated, state_ok in *. cbn. intuition lra.
  - change (sim_inv (sim (snd (simulate_light_sensor v env (dev_id d) w)))).
    destruct (simulate_light_sensor_sim v env (dev_id d) w) as (x & -> & Hx).
    unfold sim_inv, calibrated, state_ok in *. cbn. intuition lra.
  - change (sim_inv (sim (snd (simulate_ph_sensor v env (dev_id d) w)))).
    destruct (simulate_ph_sensor_sim v env (dev_id d) w) as (x & -> & Hx).
    unfold sim_inv, calibrated, state_ok in *. cbn. intuition lra.
Qed.

Lemma tick_device_inv v env w d :
  sim_inv (sim w) -> sim_inv (sim (tick_device v env w d)).
Proof.
  intros H. unfold tick_device.
  destruct (simulate_device v env d w) as [[r w'] |] eqn:E; [|exact H].
  cbn. exact (simulate_device_inv _ _ _ _ _ _ E H).
Qed.

Lemma tick_devices_inv v env devices w :
  sim_inv (sim w) -> sim_inv (sim (tick_devices v env devices w)).
Proof.
  unfold tick_devices. revert w.
  induction devices as [| d ds IH]; intros w H; cbn [fold_left]; auto.
  apply IH, tick_device_inv, H.
Qed.

Lemma iterations_inv n v env devices interval w :
  sim_inv (sim w) -> sim_inv (sim (iterations n v env devices interval w)).
Proof.
  revert w. induction n as [| n IH]; intros w H; cbn [iterations]; auto.
  apply IH. unfold iteration.
  destruct (sleep_sim env interval (tick_devices v env devices w)) as [b ->].
  apply sim_inv_connected, tick_devices_inv, H.
Qed.

(** ** Soil moisture *)

Lemma round_half_even_IZR (z : Z) : round_half_even (IZR z) = z.
Proof.
  unfold round_half_even.
  rewrite (Zfloor_eq z (IZR z)) by lra.
  destruct (Rlt_dec _ _); [reflexivity | lra].
Qed.

Lemma round2_IZR (z : Z) : round2 (IZR z) = IZR z.
Proof.
  unfold round2. rewrite <- mult_IZR, round_half_even_IZR, mult_IZR. field.
Qed.

Lemma py_round2_val (a : pynum) : py_val (py_round2 a) = round2 (py_val a).
Proof. destruct a; cbn; [symmetry; apply round2_IZR | reflexivity]. Qed.

Lemma clamp_soil_le (a : pynum) (s : R) :
  20 <= s -> py_val a <= s -> py_val (clamp_soil a) <= s.
Proof.
  intros Hs Ha. unfold clamp_soil.
  rewrite clamp_val by (simpl; lra). simpl.
  unfold Rmax, Rmin.
  destruct (Rle_dec 70 (py_val a)); destruct (Rle_dec 20 _); lra.
Qed.

Lemma simulate_soil_moisture_clamps v env id w :
  soil_moisture (sim (snd (simulate_soil_moisture v env id w)))
  = clamp_soil (soil_moisture (sim (snd (soil_update env w)))).
Proof.
  unfold simulate_soil_moisture.
  destruct (soil_update env w) as [fired w1]. reflexivity.
Qed.

Lemma soil_update_fired env w :
  fst (soil_update env w) = Rltb (draws env (S (rng w))) (2 / 100).
Proof.
  unfold soil_update. cbn [random rng set_sim].
  destruct (Rltb _ _); reflexivity.
Qed.

Lemma soil_update_quiet env w :
  fst (soil_update env w) = false ->
  py_val (soil_moisture (sim (snd (soil_update env w))))
  = py_val (soil_moisture (sim w)) - uniform (5 / 100) (15 / 100) (draws env (rng w)).
Proof.
  unfold soil_update. cbn [random rng set_sim].
  destruct (Rltb _ _); [discriminate | reflexivity].
Qed.

Lemma soil_update_jump env w :
  fst (soil_update env w) = true ->
  py_val (soil_moisture (sim (snd (soil_update env w))))
  = py_val (soil_moisture (sim w))
    - uniform (5 / 100) (15 / 100) (draws env (rng w))
    + uniform 15 25 (draws env (S (S (rng w)))).
Proof.
  unfold soil_update. cbn [random rng set_sim].
  destruct (Rltb _ _); [reflexivity | discriminate].
Qed.

(** C2, as stated, fails: from the initial state, with a decay of 0.1 and
    the smallest jump 15, the irrigation event fires and the value before
    clamping is 64.9, only 14.9 above the previous value 50. *)
Lemma soil_jump_below_15 :
  let w := init_world 0 [] in
  let r := soil_update env_irrigate w in
  draws_ok env_irrigate /\
  fst r = true /\
  py_val (soil_moisture (sim (snd r))) = 649 / 10 /\
  ~ (15 <= py_val (soil_moisture (sim (snd r))) - py_val (soil_moisture (sim w))
     <= 25).
Proof.
  cbv zeta.
  assert (Hd : draws_ok env_irrigate).
  { intros [| i]; cbn; lra. }
  assert (Hf : fst (soil_update env_irrigate (init_world 0 [])) = true).
  { rewrite soil_update_fired. cbn. unfold Rltb.
    destruct (Rlt_dec 0 (2 / 100)); [reflexivity | lra]. }
  split; [exact Hd|]. split; [exact Hf|].
  rewrite (soil_update_jump _ _ Hf). cbn. unfold uniform. split; lra.
Qed.

(** C2, amended.  For every call of [simulate_soil_moisture] from a state
    whose soil moisture is at least 20 (as it is initially and after every
    call), with draws in [0, 1): the irrigation event fires exactly when
    the second draw is below 0.02; if it does not fire, the new state value
    and the published value are not above the previous ones; if it fires,
    the value before clamping is the previous value minus a decay in
    [0.05, 0.15] plus a jump in [15, 25], so it exceeds the previous value
    by an amount in [14.85, 24.95]. *)
Theorem soil_moisture_step (v : script) (env : Env) (id : string) (w : World)
        (Hd : draws_ok env) (Hs : 20 <= py_val (soil_moisture (sim w))) :
  let prev := soil_moisture (sim w) in
  let fired := fst (soil_update env w) in
  let pre := py_val (soil_moisture (sim (snd (soil_update env w)))) in
  let r := simulate_soil_moisture v env id w in
  fired = Rltb (draws env (S (rng w))) (2 / 100) /\
  (fired = false ->
   py_val (soil_moisture (sim (snd r))) <= py_val prev /\
   exists a, measurement "soilMoisture" (fst r) = Some a /\
             py_val a <= py_val (py_round2 prev)) /\
  (fired = true ->
   (exists d j, 5 / 100 <= d <= 15 / 100 /\ 15 <= j <= 25 /\
                pre = py_val prev - d + j) /\
   1485 / 100 <= pre - py_val prev <= 2495 / 100).
Proof.
  cbv zeta.
  pose proof (uniform_bounds (5 / 100) (15 / 100) (draws env (rng w))
                ltac:(lra) (Hd _)) as Hdecay.
  split; [apply soil_update_fired|]. split.
  - intros Hq.
    assert (Hle : py_val (soil_moisture
                            (sim (snd (simulate_soil_moisture v env id w))))
                  <= py_val (soil_moisture (sim w))).
    { rewrite simulate_soil_moisture_clamps. apply clamp_soil_le; [exact Hs|].
      rewrite (soil_update_quiet _ _ Hq). lra. }
    split; [exact Hle|].
    destruct (soil_moisture_reading v env id w) as (a & Ha & -> & _).
    eexists. split; [exact Ha|].
    rewrite !py_round2_val. apply round2_mono, Hle.
  - intros Hj. rewrite (soil_update_jump _ _ Hj).
    pose proof (uniform_bounds 15 25 (draws env (S (S (rng w))))
                  ltac:(lra) (Hd _)) as Hjump.
    split; [|lra].
    eexists _, _. split; [exact Hdecay|]. split; [exact Hjump | reflexivity].
Qed.

Lemma soil_moisture_step_witness :
  draws_ok env_quiet /\
  20 <= py_val (soil_moisture (sim (init_world 0 []))) /\
  fst (soil_update env_quiet (init_world 0 [])) = false /\
  py_val (soil_moisture
            (sim (snd (simulate_soil_moisture Sim env_quiet "SOIL-001"
                                              (init_world 0 [])))))
  <= 50.
Proof.
  assert (Hd : draws_ok env_quiet) by (intros i; cbn; lra).
  assert (Hs : 20 <= py_val (soil_moisture (sim (init_world 0 []))))
    by (cbn; lra).
  assert (Hq : fst (soil_update env_quiet (init_world 0 [])) = false).
  { rewrite soil_update_fired. cbn. unfold Rltb.
    destruct (Rlt_dec (1 / 2) (2 / 100)); [lra | reflexivity]. }
  split; [exact Hd|]. split; [exact Hs|]. split; [exact Hq|].
  exact (proj1 (proj1 (proj2 (soil_moisture_step Sim env_quiet "SOIL-001"
                                                 (init_world 0 []) Hd Hs))
                      Hq)).
Defined.

(** ** The pH reading *)

Lemma clamp_ph_float (a : pynum) :
  is_float a = true -> is_float (clamp_ph a) = true.
Proof.
  intros Ha. unfold clamp_ph, py_max, py_min.
  destruct (Rlt_dec _ _); destruct (Rgt_dec _ _); auto.
Qed.

Lemma ph_value_float (v : script) (env : Env) (id : string) (w : World) :
  is_float (py_round2 (ph_level (sim (snd (simulate_ph_sensor v env id w)))))
  = true.
Proof.
  unfold simulate_ph_sensor. cbn [random snd].
  rewrite py_round2_float. cbn [set_sim sim set_ph_level ph_level].
  apply clamp_ph_float. reflexivity.
Qed.

(** In [sensor_simulator1.py] every pH reading carries a float under
    [soilPH]. *)
Lemma ph_reading_sim1_soilPH (env : Env) (id : string) (w : World) :
  exists a, measurement "soilPH" (fst (simulate_ph_sensor Sim1 env id w)) = Some a /\
            is_float a = true /\
            dict_get "ph" (fst (simulate_ph_sensor Sim1 env id w)) = None.
Proof.
  destruct (ph_reading Sim1 env id w) as (a & Ha & -> & _).
  eexists. split; [exact Ha|]. split; [apply ph_value_float | reflexivity].
Qed.

(** C3 at the failing input.  In [sensor_simulator.py] the pH reading of
    device [PH-001], from the initial state, has no field [soilPH]: the
    measurement (a float) is stored under [ph]. *)
Theorem ph_reading_sim_lacks_soilPH :
  let r := fst (simulate_ph_sensor Sim env_quiet "PH-001" (init_world 0 [])) in
  dict_get "soilPH" r = None /\
  dict_get "sensorType" r = Some (JStr "PH") /\
  exists a, measurement "ph" r = Some a /\ is_float a = true.
Proof.
  cbv zeta. split; [reflexivity|]. split; [reflexivity|].
  destruct (ph_reading Sim env_quiet "PH-001" (init_world 0 []))
    as (a & Ha & -> & _).
  eexists. split; [exact Ha | apply ph_value_float].
Qed.

(** ** The DHT22 reading *)

Lemma temp_variation_bounds (hour : R) : -5 <= temp_variation hour <= 5.
Proof.
  unfold temp_variation.
  pose proof (SIN_bound ((hour - 6) * PI / 12)) as [Hlo Hhi]. lra.
Qed.

(** C10. From a state that holds the base temperature 28 assigned by
    [__init__], and with draws in [0, 1), the temperature of the DHT22
    reading lies in [22, 34], at every simulated hour. *)
Theorem dht22_temperature_range (v : script) (env : Env) (id : string)
        (w : World) (Hd : draws_ok env) (Hc : calibrated (sim w)) :
  exists a, measurement "temperature" (fst (simulate_dht22 v env id w)) = Some a /\
            22 <= py_val a <= 34.
Proof.
  unfold simulate_dht22. cbn [random fst sim].
  eexists. split; [destruct v; reflexivity|].
  destruct Hc as [Ht _]. rewrite Ht. cbn [py_add_f py_val py_round2].
  pose proof (temp_variation_bounds (get_time_factor w)) as Hv.
  pose proof (uniform_bounds (-1) 1 (draws env (rng w)) ltac:(lra) (Hd _)) as Hu.
  split.
  - replace 22 with (IZR 2200 / 100) by lra. apply round2_ge. lra.
  - replace 34 with (IZR 3400 / 100) by lra. apply round2_le. lra.
Qed.

Lemma dht22_temperature_range_witness :
  draws_ok env_quiet /\ calibrated (sim (init_world 0 [])) /\
  exists a, measurement "temperature"
              (fst (simulate_dht22 Sim env_quiet "DHT22-001" (init_world 0 [])))
            = Some a /\ 22 <= py_val a <= 34.
Proof.
  assert (Hd : draws_ok env_quiet) by (intros i; cbn; lra).
  assert (Hc : calibrated (sim (init_world 0 []))) by (split; reflexivity).
  split; [exact Hd|]. split; [exact Hc|].
  exact (dht22_temperature_range Sim env_quiet "DHT22-001" (init_world 0 [])
                                 Hd Hc).
Defined.

(** C9. [simulate_dht22] assigns no field of the instance: the simulator
    after the call is the simulator before it.  Its two measurements are
    determined by the simulated hour and the two draws it consumes: two
    calls at the same hour with the same draws, from states holding the
    base values of [__init__], give the same temperature and humidity,
    whatever the other state fields are. *)
Theorem simulate_dht22_frame (v : script) (env env' : Env) (id id' : string)
        (w w' : World)
        (Hc : calibrated (sim w)) (Hc' : calibrated (sim w'))
        (Hh : get_time_factor w' = get_time_factor w)
        (H1 : draws env' (rng w') = draws env (rng w))
        (H2 : draws env' (S (rng w')) = draws env (S (rng w))) :
  let r := simulate_dht22 v env id w in
  let r' := simulate_dht22 v env' id' w' in
  sim (snd r) = sim w /\
  base_temperature (sim (snd r)) = base_temperature (sim w) /\
  base_humidity (sim (snd r)) = base_humidity (sim w) /\
  soil_moisture (sim (snd r)) = soil_moisture (sim w) /\
  light_intensity (sim (snd r)) = light_intensity (sim w) /\
  ph_level (sim (snd r)) = ph_level (sim w) /\
  measurement "temperature" (fst r') = measurement "temperature" (fst r) /\
  measurement "humidity" (fst r') = measurement "humidity" (fst r) /\
  (exists t h, measurement "temperature" (fst r) = Some t /\
               measurement "humidity" (fst r) = Some h).
Proof.
  cbv zeta. repeat (split; [reflexivity|]).
  unfold simulate_dht22. cbn [random fst sim rng].
  destruct Hc as [Ht Hu], Hc' as [Ht' Hu'].
  rewrite Ht, Hu, Ht', Hu', Hh, H1, H2.
  split; [destruct v; reflexivity|].
  split; [destruct v; reflexivity|].
  eexists _, _. split; destruct v; reflexivity.
Qed.

(** ** Light at noon and at midnight *)

Lemma expect_lower {A : Type} (f : A -> R) (ok : A -> Prop) (lo : R) (d : dist A) :
  (forall a, ok a -> lo <= f a) ->
  Forall (fun pa => 0 <= fst pa /\ ok (snd pa)) d ->
  lo * weight d <= expect f d.
Proof.
  intros Hf Hd. induction Hd as [| [p a] rest [Hp Ha] _ IH]; cbn.
  - lra.
  - cbn in Hp, Ha. specialize (Hf a Ha). nra.
Qed.

Lemma expect_upper {A : Type} (f : A -> R) (ok : A -> Prop) (hi : R) (d : dist A) :
  (forall a, ok a -> f a <= hi) ->
  Forall (fun pa => 0 <= fst pa /\ ok (snd pa)) d ->
  expect f d <= hi * weight d.
Proof.
  intros Hf Hd. induction Hd as [| [p a] rest [Hp Ha] _ IH]; cbn.
  - lra.
  - cbn in Hp, Ha. specialize (Hf a Ha). nra.
Qed.

Lemma published_light_eq (v : script) (w : World) (u : R) :
  published_light v w u
  = py_val (py_round2 (light_intensity
       (sim (snd (simulate_light_sensor v (env_of_draws (fun _ => u))
                                        "LIGHT-001" w))))).
Proof.
  unfold published_light.
  destruct (light_reading v (env_of_draws (fun _ => u)) "LIGHT-001" w)
    as (a & -> & -> & _).
  reflexivity.
Qed.

Lemma light_at_noon (v : script) (w : World) (u : R) :
  get_time_factor w = 12 -> 0 <= u < 1 -> 48000 <= published_light v w u.
Proof.
  intros Hh Hu. rewrite published_light_eq.
  unfold simulate_light_sensor.
  cbn [snd set_sim sim set_light_intensity light_intensity].
  rewrite light_update_day by lra. cbn [env_of_draws draws]. rewrite Hh.
  replace ((12 - 6) * PI / 12) with (PI / 2) by field.
  rewrite sin_PI2.
  pose proof (uniform_bounds (-2000) 2000 u ltac:(lra) Hu) as Hn.
  unfold py_max. cbn [py_val].
  destruct (Rgt_dec _ _) as [_ | Hneg]; [|lra].
  cbn [py_round2 py_val].
  replace 48000 with (IZR 4800000 / 100) by lra. apply round2_ge. lra.
Qed.

Lemma light_at_midnight (v : script) (w : World) (u : R) :
  get_time_factor w = 0 -> 0 <= u < 1 -> published_light v w u <= 100.
Proof.
  intros Hh Hu. rewrite published_light_eq.
  unfold simulate_light_sensor.
  cbn [snd set_sim sim set_light_intensity light_intensity].
  rewrite light_update_night by lra. cbn [env_of_draws draws].
  pose proof (uniform_bounds 0 100 u ltac:(lra) Hu) as Hn.
  rewrite py_round2_val.
  apply Rle_trans with (IZR 10000 / 100); [apply round2_le | lra].
  unfold py_max. cbn [py_val].
  destruct (Rgt_dec _ _); cbn [py_val]; lra.
Qed.

(** C4. When the simulated hour is 12 the expected published light
    intensity exceeds the expected published light intensity at hour 0,
    for every probability distribution of the noise draw over [0, 1): the
    reading at noon is at least 48000 and the reading at midnight is at
    most 100, whatever the draws. *)
Theorem light_noon_exceeds_midnight (v : script) (w12 w0 : World)
        (d12 d0 : dist R)
        (Hnoon : get_time_factor w12 = 12) (Hnight : get_time_factor w0 = 0)
        (Hd12 : draw_dist d12) (Hd0 : draw_dist d0) :
  expect (published_light v w0) d0 < expect (published_light v w12) d12 /\
  (forall u12 u0, 0 <= u12 < 1 -> 0 <= u0 < 1 ->
                  published_light v w0 u0 < published_light v w12 u12).
Proof.
  destruct Hd12 as [F12 W12], Hd0 as [F0 W0]. split.
  - pose proof (expect_lower (published_light v w12) (fun u => 0 <= u < 1)
                             48000 d12 (fun u => light_at_noon v w12 u Hnoon) F12) as Hlo.
    pose proof (expect_upper (published_light v w0) (fun u => 0 <= u < 1)
                             100 d0 (fun u => light_at_midnight v w0 u Hnight) F0) as Hhi.
    rewrite W12 in Hlo. rewrite W0 in Hhi. lra.
  - intros u12 u0 H12 H0.
    pose proof (light_at_noon v w12 u12 Hnoon H12).
    pose proof (light_at_midnight v w0 u0 Hnight H0). lra.
Qed.

Lemma light_noon_exceeds_midnight_witness :
  get_time_factor (world_at 720) = 12 /\
  get_time_factor (world_at 0) = 0 /\
  draw_dist fair_two /\
  expect (published_light Sim (world_at 0)) fair_two
  < expect (published_light Sim (world_at 720)) fair_two.
Proof.
  assert (Hnoon : get_time_factor (world_at 720) = 12).
  { unfold get_time_factor. cbn [world_at now sim init_sim start_time].
    rewrite hour_of_day_first_day; lra. }
  assert (Hnight : get_time_factor (world_at 0) = 0).
  { unfold get_time_factor. cbn [world_at now sim init_sim start_time].
    rewrite hour_of_day_first_day; lra. }
  assert (Hd : draw_dist fair_two).
  { split; [|cbn; lra].
    repeat (apply Forall_cons; [cbn; lra|]). apply Forall_nil. }
  split; [exact Hnoon|]. split; [exact Hnight|]. split; [exact Hd|].
  exact (proj1 (light_noon_exceeds_midnight Sim (world_at 720) (world_at 0)
                                            fair_two fair_two
                                            Hnoon Hnight Hd Hd)).
Defined.

Lemma simulate_dht22_frame_witness :
  calibrated (sim (world_at 0)) /\ calibrated (sim world_dry) /\
  soil_moisture (sim world_dry) <> soil_moisture (sim (world_at 0)) /\
  measurement "temperature"
    (fst (simulate_dht22 Sim env_quiet "DHT22-002" world_dry))
  = measurement "temperature"
      (fst (simulate_dht22 Sim env_quiet "DHT22-001" (world_at 0))).
Proof.
  assert (Hc : calibrated (sim (world_at 0))) by (split; reflexivity).
  assert (Hc' : calibrated (sim world_dry)) by (split; reflexivity).
  split; [exact Hc|]. split; [exact Hc'|]. split.
  - cbn. intros H. injection H as H. lra.
  - destruct (simulate_dht22_frame Sim env_quiet env_quiet
                "DHT22-001" "DHT22-002" (world_at 0) world_dry Hc Hc'
                eq_refl eq_refl eq_refl)
      as (_ & _ & _ & _ & _ & _ & Ht & _).
    exact Ht.
Defined.

(** ** Unknown sensor kinds *)

Lemma simulate_device_unknown v env d w :
  ~ In (dev_type d) known_kinds -> simulate_device v env d w = None.
Proof.
  intros Hk. unfold simulate_device.
  repeat match goal with
         | |- context [String.eqb (dev_type d) ?k] =>
             destruct (String.eqb_spec (dev_type d) k) as [E | _];
             [exfalso; apply Hk; rewrite E; cbn; tauto|]
         end.
  reflexivity.
Qed.

(** C7. A device whose kind is none of DHT22, SOIL_MOISTURE, LIGHT and PH
    yields no reading, leaves the world (state, random stream and message
    log) as it was, and the pass over the roster is the pass over the
    roster without that device. *)
Theorem unknown_kind_skipped (v : script) (env : Env)
        (before after : list Device) (d : Device) (w : World)
        (Hk : ~ In (dev_type d) known_kinds) :
  simulate_device v env d w = None /\
  tick_device v env w d = w /\
  tick_devices v env (before ++ d :: after) w
  = tick_devices v env (before ++ after) w.
Proof.
  assert (Hskip : forall w0, tick_device v env w0 d = w0).
  { intros w0. unfold tick_device.
    now rewrite (simulate_device_unknown v env d w0 Hk). }
  split; [apply simulate_device_unknown, Hk|]. split; [apply Hskip|].
  unfold tick_devices. rewrite !fold_left_app. cbn [fold_left].
  now rewrite Hskip.
Qed.

Lemma unknown_kind_skipped_witness :
  let pump := mkDevice "PUMP-001" "PUMP" "Garden A" in
  ~ In (dev_type pump) known_kinds /\
  tick_devices Sim env_quiet (pump :: roster) (world_at 0)
  = tick_devices Sim env_quiet roster (world_at 0).
Proof.
  cbv zeta.
  assert (Hk : ~ In (dev_type (mkDevice "PUMP-001" "PUMP" "Garden A"))
                    known_kinds).
  { cbn. intros [H | [H | [H | [H | []]]]]; discriminate H. }
  split; [exact Hk|].
  exact (proj2 (proj2 (unknown_kind_skipped Sim env_quiet [] roster
                         (mkDevice "PUMP-001" "PUMP" "Garden A")
                         (world_at 0) Hk))).
Defined.

(** ** Connecting *)

Lemma deliver_no_accept T t cbs s :
  t < T -> connected s = false -> no_accept_before T cbs ->
  connected (fst (deliver t cbs s)) = false /\
  no_accept_before T (snd (deliver t cbs s)).
Proof.
  intros Ht Hc Hn. revert s Hc.
  induction Hn as [| [tc c] rest Hhd Htl IH]; intros s Hc; cbn [deliver].
  - split; [exact Hc | constructor].
  - destruct (Rle_dec tc t) as [Hdue | Hlater].
    + apply IH. destruct c as [rc | rc]; cbn.
      * unfold on_connect. destruct (Z.eqb_spec rc 0) as [-> | _];
          [|exact Hc].
        exfalso. specialize (Hhd eq_refl). cbn in Hhd. lra.
      * reflexivity.
    + split; [exact Hc | now constructor].
Qed.

Lemma sleep_now env d w : now (sleep env d w) = now w + d + overshoot env (naps w).
Proof.
  unfold sleep. destruct (loop_running w); [|reflexivity].
  destruct (deliver _ _ _). reflexivity.
Qed.

Lemma sleep_rng env d w : rng (sleep env d w) = rng w.
Proof.
  unfold sleep. destruct (loop_running w); [|reflexivity].
  destruct (deliver _ _ _). reflexivity.
Qed.

Lemma sleep_naps env d w : naps (sleep env d w) = S (naps w).
Proof.
  unfold sleep. destruct (loop_running w); [|reflexivity].
  destruct (deliver _ _ _). reflexivity.
Qed.

Lemma sleep_no_accept T env d w :
  now w + d + overshoot env (naps w) < T ->
  connected (sim w) = false -> no_accept_before T (pending w) ->
  connected (sim (sleep env d w)) = false /\
  no_accept_before T (pending (sleep env d w)).
Proof.
  intros Ht Hc Hn. unfold sleep. destruct (loop_running w).
  - pose proof (deliver_no_accept T (now w + d + overshoot env (naps w))
                                  (pending w) (sim w) Ht Hc Hn) as H.
    destruct (deliver _ _ _). exact H.
  - split; assumption.
Qed.

Lemma still_waiting_elapsed v start w :
  still_waiting v start w = true -> now w - start < 10.
Proof.
  unfold still_waiting, timeout, Rltb. intros H.
  apply andb_prop in H as [_ H].
  destruct v; destruct (Rlt_dec _ _); try discriminate; lra.
Qed.

Lemma still_waiting_done v start w :
  still_waiting v start w = false ->
  connected (sim w) = true \/ 10 <= now w - start.
Proof.
  unfold still_waiting, timeout, Rltb. intros H.
  destruct (connected (sim w)); [now left | right].
  cbn in H. destruct v; destruct (Rlt_dec _ _); try discriminate; lra.
Qed.

Lemma still_waiting_late v start w :
  10 <= now w - start -> still_waiting v start w = false.
Proof.
  intros H. unfold still_waiting, timeout, Rltb.
  destruct v; destruct (Rlt_dec _ _); try lra; apply andb_false_r.
Qed.

(** The waiting loop ends: every pass that sleeps moves the clock by at
    least a tenth of a second towards the deadline. *)
Lemma wait_connected_terminates v env start (n : nat) :
  overshoot_ok env ->
  forall w, 10 - (now w - start) <= INR n / 10 ->
            exists w2, wait_connected (S n) v env start w = Some w2.
Proof.
  intros Ho. induction n as [| n IH]; intros w Hw; cbn [wait_connected].
  - rewrite still_waiting_late by (cbn in Hw; lra). eauto.
  - destruct (still_waiting v start w); [|eauto].
    apply IH. rewrite sleep_now. rewrite S_INR in Hw.
    specialize (Ho (naps w)). lra.
Qed.

Lemma wait_connected_more_fuel v env start fuel :
  forall w w2, wait_connected fuel v env start w = Some w2 ->
               forall fuel', (fuel <= fuel')%nat ->
                             wait_connected fuel' v env start w = Some w2.
Proof.
  induction fuel as [| fuel IH]; intros w w2 H fuel' Hf; [discriminate|].
  destruct fuel' as [| fuel']; [lia|]. cbn [wait_connected] in *.
  destruct (still_waiting v start w); [|exact H].
  apply (IH _ _ H). lia.
Qed.

(** What the waiting loop leaves behind. *)
Lemma wait_connected_spec v env start fuel :
  forall w w2, wait_connected fuel v env start w = Some w2 ->
    sent w2 = sent w /\ rng w2 = rng w /\
    still_waiting v start w2 = false /\
    (naps w2 + 1 <= naps w + fuel)%nat.
Proof.
  induction fuel as [| fuel IH]; intros w w2 H; [discriminate|].
  cbn [wait_connected] in H.
  destruct (still_waiting v start w) eqn:E.
  - destruct (IH _ _ H) as (Hs & Hr & Hq & Hn).
    rewrite sleep_sent in Hs. rewrite sleep_rng in Hr. rewrite sleep_naps in Hn.
    repeat split; auto. lia.
  - injection H as <-. repeat split; auto. lia.
Qed.

Lemma wait_connected_no_accept v env start eps fuel :
  (forall i, overshoot env i <= eps) ->
  forall w w2, wait_connected fuel v env start w = Some w2 ->
    connected (sim w) = false ->
    no_accept_before (start + 10 + 1 / 10 + eps) (pending w) ->
    connected (sim w2) = false.
Proof.
  intros He. induction fuel as [| fuel IH]; intros w w2 H Hc Hn; [discriminate|].
  cbn [wait_connected] in H.
  destruct (still_waiting v start w) eqn:E.
  - apply still_waiting_elapsed in E. specialize (He (naps w)).
    destruct (sleep_no_accept (start + 10 + 1 / 10 + eps) env (1 / 10) w
                              ltac:(lra) Hc Hn) as [Hc' Hn'].
    exact (IH _ _ H Hc' Hn').
  - injection H as <-. exact Hc.
Qed.

(** The loop returns within the timeout, one polling interval and the
    overshoot of one sleep. *)
Lemma wait_connected_bounded v env start eps fuel :
  (forall i, overshoot env i <= eps) ->
  forall w w2, wait_connected fuel v env start w = Some w2 ->
    now w - start < 10 + 1 / 10 + eps ->
    now w2 - start < 10 + 1 / 10 + eps.
Proof.
  intros He. induction fuel as [| fuel IH]; intros w w2 H Hw; [discriminate|].
  cbn [wait_connected] in H.
  destruct (still_waiting v start w) eqn:E.
  - apply (IH _ _ H). rewrite sleep_now.
    apply still_waiting_elapsed in E. specialize (He (naps w)). lra.
  - injection H as <-. exact Hw.
Qed.

Lemma client_loop_start_fields w :
  let w1 := client_loop_start w in
  now w1 = now w /\ rng w1 = rng w /\ naps w1 = naps w /\ sent w1 = sent w.
Proof.
  cbv zeta. unfold client_loop_start.
  destruct (deliver _ _ _). repeat split.
Qed.

Lemma client_loop_start_no_accept T w :
  now w < T -> connected (sim w) = false -> no_accept_before T (pending w) ->
  connected (sim (client_loop_start w)) = false /\
  no_accept_before T (pending (client_loop_start w)).
Proof.
  intros Ht Hc Hn. unfold client_loop_start.
  pose proof (deliver_no_accept T (now w) (pending w) (sim w) Ht Hc Hn) as H.
  destruct (deliver _ _ _). exact H.
Qed.

(** C8. With sleeps that never return early, [connect] ends (101 passes
    of the waiting loop are enough, and at most 100 of them sleep): it
    returns within the timeout of 10 seconds, one polling interval and
    one overshoot.  It returns [False] when [client.connect] raises, and
    when no callback accepting the connection is due by then (the broker
    is silent, too late, or answers with a non-zero return code); a
    [False] without exception means the timeout has elapsed.  Whenever
    [connect] returns [False], [run_simulation] stops in the world
    [connect] left: the message log and the random stream are untouched,
    so no status, no reading and no iteration of the loop. *)
Theorem connect_failure_exits (v : script) (env : Env) (devices : list Device)
        (interval : R) (stop : Interrupt) (w : World) (fuel : nat)
        (Ho : overshoot_ok env) (Hf : (101 <= fuel)%nat) :
  exists b w1,
    connect fuel v env w = Some (b, w1) /\
    sent w1 = sent w /\ rng w1 = rng w /\ (naps w1 <= naps w + 100)%nat /\
    (forall eps, (forall i, overshoot env i <= eps) ->
       now w1 - now w < 10 + 1 / 10 + eps /\
       (connected (sim w) = false ->
        no_accept_before (now w + 10 + 1 / 10 + eps) (pending w) ->
        b = false)) /\
    (connect_raises env = true -> b = false) /\
    (b = false -> connect_raises env = false -> 10 <= now w1 - now w) /\
    (b = false ->
     run_simulation fuel v env devices interval stop w = Some w1).
Proof.
  assert (Hrun : forall b w1, connect fuel v env w = Some (b, w1) -> b = false ->
                 run_simulation fuel v env devices interval stop w = Some w1).
  { intros b w1 Hc ->. unfold run_simulation. now rewrite Hc. }
  unfold connect in *. destruct (connect_raises env) eqn:Hraise.
  - exists false, w. split; [reflexivity|].
    split; [reflexivity|]. split; [reflexivity|]. split; [lia|].
    split; [|split; [reflexivity|split; [discriminate|]]].
    + intros eps He. split; [|reflexivity].
      specialize (Ho 0%nat). specialize (He 0%nat). lra.
    + intros _. exact (Hrun false w eq_refl eq_refl).
  - destruct (client_loop_start_fields w) as (Hnow & Hrng & Hnaps & Hsent).
    set (w0 := client_loop_start w) in *.
    destruct (wait_connected_terminates v env (now w0) 100 Ho w0) as [w2 Hw2].
    { cbn. lra. }
    pose proof (wait_connected_more_fuel _ _ _ _ _ _ Hw2 fuel Hf) as Hfuel.
    destruct (wait_connected_spec _ _ _ _ _ _ Hw2) as (Hs & Hr & Hq & Hn).
    rewrite Hfuel in *.
    exists (connected (sim w2)), w2. split; [reflexivity|].
    split; [congruence|]. split; [congruence|]. split; [lia|].
    split; [|split; [discriminate|split]].
    + intros eps He.
      assert (He0 : 0 <= eps) by (specialize (Ho 0%nat); specialize (He 0%nat); lra).
      split.
      * rewrite <- Hnow.
        apply (wait_connected_bounded v env (now w0) eps _ He _ _ Hw2). lra.
      * intros Hc Hna.
        destruct (client_loop_start_no_accept (now w + 10 + 1 / 10 + eps) w
                                              ltac:(lra) Hc Hna)
          as [Hc0 Hn0].
        fold w0 in Hc0, Hn0. rewrite <- Hnow in Hn0.
        exact (wait_connected_no_accept v env (now w0) eps _ He _ _ Hw2 Hc0 Hn0).
    + intros Hb _. rewrite <- Hnow.
      destruct (still_waiting_done _ _ _ Hq) as [Hc | Ht]; [congruence | exact Ht].
    + intros Hb. exact (Hrun _ _ eq_refl Hb).
Qed.

Lemma connect_failure_exits_witness :
  overshoot_ok env_quiet /\ (101 <= 101)%nat /\
  exists w1,
    run_simulation 101 Sim env_quiet roster 10 (mkInterrupt 3 2) world_refused
    = Some w1 /\ sent w1 = [] /\ rng w1 = 0%nat.
Proof.
  assert (Ho : overshoot_ok env_quiet) by (intros i; cbn; lra).
  assert (Hf : (101 <= 101)%nat) by lia.
  split; [exact Ho|]. split; [exact Hf|].
  destruct (connect_failure_exits Sim env_quiet roster 10 (mkInterrupt 3 2)
                                  world_refused 101 Ho Hf)
    as (b & w1 & _ & Hs & Hr & _ & Hno & _ & _ & Hrun).
  exists w1.
  assert (Hb : b = false).
  { apply (Hno 0); [intros i; cbn; lra | reflexivity|].
    repeat constructor. cbn. discriminate. }
  split; [exact (Hrun Hb)|]. split; [exact Hs | exact Hr].
Defined.

(** ** Status messages of a run *)

Lemma status_ids_app (s : string) (l1 l2 : list Message) :
  status_ids s (l1 ++ l2) = (status_ids s l1 ++ status_ids s l2)%list.
Proof.
  induction l1 as [| m l1 IH]; cbn [status_ids app]; [reflexivity|].
  destruct (status_of m) as [[i s'] |]; [|exact IH].
  destruct (String.eqb s' s); [cbn; now rewrite IH | exact IH].
Qed.

Lemma status_ids_none (s : string) (l : list Message) :
  Forall (fun m => status_of m = None) l -> status_ids s l = [].
Proof.
  induction 1 as [| m l Hm _ IH]; cbn [status_ids]; [reflexivity|].
  now rewrite Hm.
Qed.

Lemma with_farm_get (v : script) (k : string) (d : pydict) :
  k <> "farmId"%string -> dict_get k (with_farm v d) = dict_get k d.
Proof.
  intros Hk. destruct v; [reflexivity|]. cbn [with_farm dict_get].
  now rewrite (proj2 (String.eqb_neq _ _) Hk).
Qed.

Lemma simulate_device_no_status v env d w r w' :
  simulate_device v env d w = Some (r, w') ->
  status_of (mkMessage (data_topic (dev_id d)) r 1 false) = None.
Proof.
  intros H.
  assert (Hr : dict_get "status" r = None).
  { unfold simulate_device in H.
    repeat match type of H with
           | (if ?c then _ else _) = _ => destruct c
           end; try discriminate;
      apply (f_equal (option_map fst)) in H; cbn [option_map fst] in H;
      injection H as <-.
    - change (dict_get "status" (fst (simulate_dht22 v env (dev_id d) w)) = None).
      unfold simulate_dht22. cbn [random fst].
      now rewrite with_farm_get by discriminate.
    - change (dict_get "status"
                (fst (simulate_soil_moisture v env (dev_id d) w)) = None).
      unfold simulate_soil_moisture. destruct (soil_update env w). cbn [fst].
      now rewrite with_farm_get by discriminate.
    - change (dict_get "status"
                (fst (simulate_light_sensor v env (dev_id d) w)) = None).
      unfold simulate_light_sensor. cbn [fst].
      now rewrite with_farm_get by discriminate.
    - change (dict_get "status" (fst (simulate_ph_sensor v env (dev_id d) w)) = None).
      unfold simulate_ph_sensor. cbn [random fst]. now destruct v. }
  unfold status_of. cbn [payload]. rewrite Hr.
  destruct (dict_get "deviceId" r) as [[] |]; reflexivity.
Qed.

Lemma status_of_status_message v id s w :
  sent (publish_device_status v id s w)
  = (sent w ++ [mkMessage (status_topic id)
                          (with_farm v [ ("deviceId"%string, JStr id);
                                         ("status"%string, JStr s);
                                         timestamp w ])
                          1 false])%list /\
  status_of (mkMessage (status_topic id)
                       (with_farm v [ ("deviceId"%string, JStr id);
                                      ("status"%string, JStr s);
                                      timestamp w ])
                       1 false) = Some (id, s).
Proof.
  split; [reflexivity|].
  unfold status_of. cbn [payload topic].
  rewrite !with_farm_get by discriminate. cbn [dict_get String.eqb Ascii.eqb Bool.eqb].
  now rewrite String.eqb_refl.
Qed.

Lemma publish_all_status_log v s devices :
  forall w, exists msgs,
    sent (publish_all_status v s devices w) = (sent w ++ msgs)%list /\
    status_ids s msgs = map dev_id devices /\
    (forall s', s' <> s -> status_ids s' msgs = []) /\
    List.length msgs = List.length devices.
Proof.
  unfold publish_all_status.
  induction devices as [| d ds IH]; intros w; cbn [fold_left].
  - exists []. rewrite app_nil_r. repeat split.
  - destruct (status_of_status_message v (dev_id d) s w) as [E1 S1].
    destruct (IH (publish_device_status v (dev_id d) s w))
      as (m2 & E2 & I2 & O2 & L2).
    eexists (_ :: m2). rewrite E2, E1, <- app_assoc. split; [reflexivity|].
    cbn [status_ids]. rewrite S1. split; [|split].
    + rewrite String.eqb_refl. cbn [map]. now rewrite I2.
    + intros s' Hs'. rewrite (proj2 (String.eqb_neq _ _)) by congruence.
      now apply O2.
    + cbn. now rewrite L2.
Qed.

Lemma connect_sent fuel v env w b w1 :
  connect fuel v env w = Some (b, w1) -> sent w1 = sent w.
Proof.
  unfold connect. destruct (connect_raises env).
  - intros H. now injection H as _ <-.
  - destruct (wait_connected _ _ _ _ _) as [w2 |] eqn:E; [|discriminate].
    intros H. injection H as _ <-.
    destruct (wait_connected_spec _ _ _ _ _ _ E) as (Hs & _).
    rewrite Hs. apply client_loop_start_fields.
Qed.

(** C6. When [connect] succeeds and the loop is interrupted after [n]
    complete iterations and any number of devices of the next one, the
    run ends; among the messages it handed to the client, the devices
    given OFFLINE status are the roster in order, one message per roster
    entry, and so are the devices given ONLINE status: as multisets the
    two coincide. *)
Theorem offline_matches_online (fuel : nat) (v : script) (env : Env)
        (devices : list Device) (interval : R) (stop : Interrupt)
        (w w1 : World)
        (Hc : connect fuel v env w = Some (true, w1)) :
  exists w' msgs,
    run_simulation fuel v env devices interval stop w = Some w' /\
    sent w' = (sent w ++ msgs)%list /\
    status_ids "OFFLINE" msgs = map dev_id devices /\
    status_ids "ONLINE" msgs = map dev_id devices /\
    List.length (status_ids "OFFLINE" msgs) = List.length devices /\
    Permutation (status_ids "OFFLINE" msgs) (status_ids "ONLINE" msgs) /\
    (forall id, count_occ string_dec (status_ids "OFFLINE" msgs) id
                = count_occ string_dec (map dev_id devices) id).
Proof.
  unfold run_simulation. rewrite Hc.
  pose proof (connect_sent _ _ _ _ _ _ Hc) as S1.
  destruct (publish_all_status_log v "ONLINE" devices w1)
    as (on & Eon & Ion & Oon & _).
  set (w2 := publish_all_status v "ONLINE" devices w1) in *.
  destruct (iterations_log v env (fun m => status_of m = None)
              (simulate_device_no_status v env)
              (full_ticks stop) devices interval w2) as (ticks & Et & Nt).
  set (w3 := iterations (full_ticks stop) v env devices interval w2) in *.
  destruct (tick_devices_log v env (fun m => status_of m = None)
              (simulate_device_no_status v env)
              (firstn (done_devices stop) devices) w3) as (part & Ep & Np).
  set (w4 := tick_devices v env (firstn (done_devices stop) devices) w3) in *.
  destruct (publish_all_status_log v "OFFLINE" devices w4)
    as (off & Eoff & Ioff & Ooff & _).
  eexists _, (on ++ ticks ++ part ++ off)%list. split; [reflexivity|].
  assert (Hoff : status_ids "OFFLINE" (on ++ ticks ++ part ++ off)
                 = map dev_id devices).
  { rewrite !status_ids_app, (Oon "OFFLINE"%string) by discriminate.
    now rewrite (status_ids_none _ _ Nt), (status_ids_none _ _ Np), Ioff. }
  assert (Hon : status_ids "ONLINE" (on ++ ticks ++ part ++ off)
                = map dev_id devices).
  { rewrite !status_ids_app, (Ooff "ONLINE"%string) by discriminate.
    rewrite (status_ids_none _ _ Nt), (status_ids_none _ _ Np), Ion.
    now rewrite !app_nil_r. }
  split.
  - unfold disconnect, client_loop_stop. cbn [sent].
    rewrite Eoff, Ep, Et, Eon, S1. now rewrite <- !app_assoc.
  - rewrite Hoff, Hon. repeat split; auto using length_map.
Qed.

Lemma connect_accepting :
  exists w1, connect 1 Sim env_quiet world_accepting = Some (true, w1).
Proof.
  unfold connect, client_loop_start, world_accepting, init_world.
  cbn [connect_raises env_quiet env_of_draws pending now sim deliver].
  destruct (Rle_dec 0 0) as [_ | H]; [|exfalso; lra].
  cbn. eexists. reflexivity.
Defined.

Lemma offline_matches_online_witness :
  exists w1 w' msgs,
    connect 1 Sim env_quiet world_accepting = Some (true, w1) /\
    run_simulation 1 Sim env_quiet roster 10 (mkInterrupt 2 3) world_accepting
    = Some w' /\
    sent w' = msgs /\
    status_ids "OFFLINE" msgs = map dev_id roster /\
    status_ids "ONLINE" msgs = map dev_id roster.
Proof.
  destruct connect_accepting as [w1 Hc].
  destruct (offline_matches_online 1 Sim env_quiet roster 10 (mkInterrupt 2 3)
                                   world_accepting w1 Hc)
    as (w' & msgs & Hrun & Hsent & Hoff & Hon & _).
  exists w1, w', msgs. repeat split; assumption.
Defined.

(** ** The state invariant along a whole run *)

Lemma wait_connected_inv v env start fuel :
  forall w w2, wait_connected fuel v env start w = Some w2 ->
               sim_inv (sim w) -> sim_inv (sim w2).
Proof.
  induction fuel as [| fuel IH]; intros w w2 H Hi; [discriminate|].
  cbn [wait_connected] in H.
  destruct (still_waiting v start w).
  - apply (IH _ _ H).
    destruct (sleep_sim env (1 / 10) w) as [b ->].
    now apply sim_inv_connected.
  - now injection H as <-.
Qed.

Lemma connect_inv fuel v env w b w1 :
  connect fuel v env w = Some (b, w1) -> sim_inv (sim w) -> sim_inv (sim w1).
Proof.
  unfold connect. destruct (connect_raises env).
  - intros H Hi. now injection H as _ <-.
  - destruct (wait_connected _ _ _ _ _) as [w2 |] eqn:E; [|discriminate].
    intros H Hi. injection H as _ <-.
    apply (wait_connected_inv _ _ _ _ _ _ E).
    unfold client_loop_start.
    destruct (deliver_sim (now w) (pending w) (sim w)) as [c Hc].
    destruct (deliver _ _ _) as [s cbs]. cbn in *. subst s.
    now apply sim_inv_connected.
Qed.

Lemma publish_all_status_sim v s devices :
  forall w, sim (publish_all_status v s devices w) = sim w.
Proof.
  unfold publish_all_status.
  induction devices as [| d ds IH]; intros w; cbn [fold_left]; [reflexivity|].
  now rewrite IH.
Qed.

(** Every world a run reaches from a freshly constructed simulator keeps
    the base values of [__init__] and the bounded scalars in range. *)
Lemma run_simulation_inv fuel v env devices interval stop t cbs w' :
  run_simulation fuel v env devices interval stop (init_world t cbs) = Some w' ->
  sim_inv (sim w').
Proof.
  unfold run_simulation.
  destruct (connect fuel v env (init_world t cbs)) as [[b w1] |] eqn:E;
    [|discriminate].
  pose proof (connect_inv _ _ _ _ _ _ E (sim_inv_init t)) as H1.
  destruct b; intros H; injection H as <-; [|exact H1].
  unfold disconnect, client_loop_stop. cbn [sim].
  rewrite publish_all_status_sim.
  apply tick_devices_inv, iterations_inv.
  now rewrite publish_all_status_sim.
Qed.

(** * Further properties of the code *)

(** ** Addressing of the data messages *)

Lemma simulate_dht22_header v env id w :
  let r := fst (simulate_dht22 v env id w) in
  dict_get "deviceId" r = Some (JStr id) /\
  dict_get "sensorType" r = Some (JStr "DHT22") /\
  dict_get "timestamp" r = Some (JTime (now w)) /\
  dict_get "status" r = None.
Proof.
  cbv zeta. unfold simulate_dht22. cbn [random fst].
  rewrite !with_farm_get by discriminate. repeat split.
Qed.

Lemma simulate_soil_moisture_header v env id w :
  let r := fst (simulate_soil_moisture v env id w) in
  dict_get "deviceId" r = Some (JStr id) /\
  dict_get "sensorType" r = Some (JStr "SOIL_MOISTURE") /\
  dict_get "timestamp" r = Some (JTime (now w)) /\
  dict_get "status" r = None.
Proof.
  cbv zeta. unfold simulate_soil_moisture.
  destruct (soil_update_io env w) as (Hnow & _).
  destruct (soil_update env w) as [fired w1]. cbn [fst snd] in *.
  rewrite !with_farm_get by discriminate.
  cbn. rewrite Hnow. repeat split.
Qed.

Lemma simulate_light_sensor_header v env id w :
  let r := fst (simulate_light_sensor v env id w) in
  dict_get "deviceId" r = Some (JStr id) /\
  dict_get "sensorType" r = Some (JStr "LIGHT") /\
  dict_get "timestamp" r = Some (JTime (now w)) /\
  dict_get "status" r = None.
Proof.
  cbv zeta. unfold simulate_light_sensor.
  destruct (light_update_eq env w) as [x ->]. cbn [fst].
  rewrite !with_farm_get by discriminate. repeat split.
Qed.

Lemma simulate_ph_sensor_header v env id w :
  let r := fst (simulate_ph_sensor v env id w) in
  dict_get "deviceId" r = Some (JStr id) /\
  dict_get "sensorType" r = Some (JStr "PH") /\
  dict_get "timestamp" r = Some (JTime (now w)) /\
  dict_get "status" r = None.
Proof.
  cbv zeta. unfold simulate_ph_sensor. cbn [random fst].
  destruct v; repeat split.
Qed.

Lemma is_known_spec (d : Device) :
  is_known d = true <-> In (dev_type d) known_kinds.
Proof.
  unfold is_known. rewrite existsb_exists. split.
  - intros (k & Hin & Hk). apply String.eqb_eq in Hk. now subst k.
  - intros H. exists (dev_type d). split; [exact H | apply String.eqb_refl].
Qed.

Lemma simulate_device_known v env d w :
  In (dev_type d) known_kinds ->
  exists r w', simulate_device v env d w = Some (r, w') /\
               dict_get "deviceId" r = Some (JStr (dev_id d)) /\
               dict_get "sensorType" r = Some (JStr (dev_type d)) /\
               dict_get "timestamp" r = Some (JTime (now w)) /\
  dict_get "status" r = None.
Proof.
  intros Hk. unfold simulate_device.
  destruct Hk as [E | [E | [E | [E | []]]]]; rewrite <- E; cbn [String.eqb Ascii.eqb Bool.eqb].
  - eexists _, _. split; [f_equal; apply surjective_pairing|].
    apply simulate_dht22_header.
  - eexists _, _. split; [f_equal; apply surjective_pairing|].
    apply simulate_soil_moisture_header.
  - eexists _, _. split; [f_equal; apply surjective_pairing|].
    apply simulate_light_sensor_header.
  - eexists _, _. split; [f_equal; apply surjective_pairing|].
    apply simulate_ph_sensor_header.
Qed.

(** X1. A device of a known kind is served with exactly one message: it
    goes to the topic [sensor/<id>/data] of that device with QoS 1 and no
    retain flag, and its payload names the device, repeats the kind of the
    device as [sensorType] and is stamped with the current clock. *)
Theorem data_message_addressing (v : script) (env : Env) (w : World)
        (d : Device) (Hk : In (dev_type d) known_kinds) :
  exists r,
    sent (tick_device v env w d)
    = (sent w ++ [mkMessage (data_topic (dev_id d)) r 1 false])%list /\
    dict_get "deviceId" r = Some (JStr (dev_id d)) /\
    dict_get "sensorType" r = Some (JStr (dev_type d)) /\
    dict_get "timestamp" r = Some (JTime (now w)) /\
    dict_get "status" r = None.
Proof.
  destruct (simulate_device_known v env d w Hk)
    as (r & w' & E & Hi & Ht & Hn & Hst).
  exists r. unfold tick_device. rewrite E.
  destruct (simulate_device_io _ _ _ _ _ _ E) as (_ & _ & _ & _ & Hs).
  cbn. rewrite Hs. repeat split; auto.
Qed.

Lemma data_message_addressing_witness :
  let d := mkDevice "SOIL-001" "SOIL_MOISTURE" "Garden A" in
  In (dev_type d) known_kinds /\
  exists r,
    sent (tick_device Sim env_quiet (world_at 0) d)
    = [mkMessage "sensor/SOIL-001/data" r 1 false] /\
    dict_get "sensorType" r = Some (JStr "SOIL_MOISTURE").
Proof.
  cbv zeta.
  assert (Hk : In (dev_type (mkDevice "SOIL-001" "SOIL_MOISTURE" "Garden A"))
                  known_kinds) by (cbn; tauto).
  split; [exact Hk|].
  destruct (data_message_addressing Sim env_quiet (world_at 0) _ Hk)
    as (r & Hs & _ & Ht & _).
  exists r. split; [exact Hs | exact Ht].
Defined.

(** ** The messages of a pass, of the loop and of a run *)

Lemma tick_device_topics v env w d :
  exists msgs,
    sent (tick_device v env w d) = (sent w ++ msgs)%list /\
    map topic msgs = (if is_known d then [data_topic (dev_id d)] else []) /\
    Forall (fun m => status_of m = None) msgs.
Proof.
  destruct (is_known d) eqn:K.
  - apply is_known_spec in K.
    destruct (simulate_device_known v env d w K) as (r & w' & E & _).
    exists [mkMessage (data_topic (dev_id d)) r 1 false].
    unfold tick_device. rewrite E.
    destruct (simulate_device_io _ _ _ _ _ _ E) as (_ & _ & _ & _ & Hs).
    cbn. rewrite Hs. repeat split.
    constructor; [|constructor].
    exact (simulate_device_no_status _ _ _ _ _ _ E).
  - exists []. unfold tick_device.
    rewrite simulate_device_unknown.
    + rewrite app_nil_r. repeat split. constructor.
    + intros H. apply is_known_spec in H. congruence.
Qed.

Lemma tick_devices_topics v env devices :
  forall w, exists msgs,
    sent (tick_devices v env devices w) = (sent w ++ msgs)%list /\
    map topic msgs = data_topics devices /\
    Forall (fun m => status_of m = None) msgs.
Proof.
  unfold tick_devices, data_topics, served.
  induction devices as [| d ds IH]; intros w; cbn [fold_left filter].
  - exists []. rewrite app_nil_r. repeat split. constructor.
  - destruct (tick_device_topics v env w d) as (m1 & E1 & T1 & N1).
    destruct (IH (tick_device v env w d)) as (m2 & E2 & T2 & N2).
    exists (m1 ++ m2)%list. rewrite E2, E1, app_assoc. split; [reflexivity|].
    split; [|apply Forall_app; now split].
    rewrite map_app, T1, T2. now destruct (is_known d).
Qed.

Lemma iterations_topics n v env devices interval :
  forall w, exists msgs,
    sent (iterations n v env devices interval w) = (sent w ++ msgs)%list /\
    map topic msgs = List.concat (repeat (data_topics devices) n) /\
    Forall (fun m => status_of m = None) msgs.
Proof.
  induction n as [| n IH]; intros w; cbn [iterations repeat List.concat].
  - exists []. rewrite app_nil_r. repeat split. constructor.
  - destruct (tick_devices_topics v env devices w) as (m1 & E1 & T1 & N1).
    destruct (IH (iteration v env devices interval w)) as (m2 & E2 & T2 & N2).
    exists (m1 ++ m2)%list. rewrite E2. unfold iteration.
    rewrite sleep_sent, E1, app_assoc. split; [reflexivity|].
    split; [|apply Forall_app; now split].
    now rewrite map_app, T1, T2.
Qed.

(** X2. A pass over the roster hands the client exactly one message per
    device of a known kind, in roster order, each on the data topic of its
    device, and [n] iterations of the loop repeat this [n] times; none of
    these messages is a status message. *)
Theorem loop_publishes_one_per_served_device (n : nat) (v : script) (env : Env)
        (devices : list Device) (interval : R) (w : World) :
  (exists msgs,
      sent (tick_devices v env devices w) = (sent w ++ msgs)%list /\
      map topic msgs = data_topics devices /\
      List.length msgs = List.length (served devices) /\
      Forall (fun m => status_of m = None) msgs) /\
  (exists msgs,
      sent (iterations n v env devices interval w) = (sent w ++ msgs)%list /\
      map topic msgs = List.concat (repeat (data_topics devices) n) /\
      List.length msgs = (n * List.length (served devices))%nat /\
      Forall (fun m => status_of m = None) msgs).
Proof.
  split.
  - destruct (tick_devices_topics v env devices w) as (msgs & E & T & N).
    exists msgs. repeat split; auto.
    rewrite <- (length_map topic), T. unfold data_topics. apply length_map.
  - destruct (iterations_topics n v env devices interval w) as (msgs & E & T & N).
    exists msgs. repeat split; auto.
    rewrite <- (length_map topic), T. clear.
    unfold data_topics. induction n as [| n IH]; cbn [repeat List.concat]; [reflexivity|].
    rewrite length_app, IH, length_map. reflexivity.
Qed.




(** ** Finer bounds on the measurements *)

Lemma Rabs_le_bounds (a b : R) : Rabs a <= b -> - b <= a <= b.
Proof. unfold Rabs. destruct (Rcase_abs a); lra. Qed.

Lemma round2_error (x : R) : Rabs (round2 x - x) <= 1 / 200.
Proof.
  unfold round2. pose proof (round_half_even_near (x * 100)) as [Hlo Hhi].
  apply Rabs_le. lra.
Qed.

Lemma py_round2_error (a : pynum) :
  Rabs (py_val (py_round2 a) - py_val a) <= 1 / 200.
Proof. rewrite py_round2_val. apply round2_error. Qed.

Lemma dht22_values v env id w :
  calibrated (sim w) ->
  let h := get_time_factor w in
  let r := fst (simulate_dht22 v env id w) in
  measurement "temperature" r
  = Some (PyFloat (round2 (28 + temp_variation h
                           + uniform (-1) 1 (draws env (rng w))))) /\
  measurement "humidity" r
  = Some (py_round2
            (py_max (PyInt 30)
               (py_min (PyInt 95)
                  (PyFloat (65 - temp_variation h * 2
                            + uniform (-3) 3 (draws env (S (rng w)))))))).
Proof.
  intros [Ht Hu]. cbv zeta. unfold simulate_dht22. cbn [random fst sim rng].
  rewrite Ht, Hu. split; destruct v; reflexivity.
Qed.

(** X4. From a state holding the base values of [__init__] and with draws
    in [0, 1), the humidity clamp of [simulate_dht22] never acts: the
    humidity is the rounded raw value, a float, and lies in [52, 78]. *)
Theorem dht22_humidity_unclamped (v : script) (env : Env) (id : string)
        (w : World) (Hd : draws_ok env) (Hc : calibrated (sim w)) :
  exists a,
    measurement "humidity" (fst (simulate_dht22 v env id w)) = Some a /\
    a = PyFloat (round2 (65 - temp_variation (get_time_factor w) * 2
                         + uniform (-3) 3 (draws env (S (rng w))))) /\
    is_float a = true /\
    52 <= py_val a <= 78.
Proof.
  destruct (dht22_values v env id w Hc) as [_ Hh].
  pose proof (temp_variation_bounds (get_time_factor w)) as Hv.
  pose proof (uniform_bounds (-3) 3 (draws env (S (rng w))) ltac:(lra) (Hd _))
    as Hu.
  rewrite clamp_id in Hh by (cbn; lra).
  eexists. split; [exact Hh|]. split; [reflexivity|]. split; [reflexivity|].
  cbn [py_round2 py_val]. split.
  - replace 52 with (IZR 5200 / 100) by lra. apply round2_ge. lra.
  - replace 78 with (IZR 7800 / 100) by lra. apply round2_le. lra.
Qed.

Lemma dht22_humidity_unclamped_witness :
  draws_ok env_quiet /\ calibrated (sim (world_at 0)) /\
  exists a,
    measurement "humidity" (fst (simulate_dht22 Sim1 env_quiet "DHT22-0001"
                                                (world_at 0))) = Some a /\
    52 <= py_val a <= 78.
Proof.
  assert (Hd : draws_ok env_quiet) by (intros i; cbn; lra).
  assert (Hc : calibrated (sim (world_at 0))) by (split; reflexivity).
  split; [exact Hd|]. split; [exact Hc|].
  destruct (dht22_humidity_unclamped Sim1 env_quiet "DHT22-0001" (world_at 0)
                                     Hd Hc) as (a & Ha & _ & _ & Hb).
  exists a. split; [exact Ha | exact Hb].
Defined.

(** X5. Humidity runs against temperature: in every DHT22 reading (state
    with the base values of [__init__], draws in [0, 1)) the published
    humidity plus twice the published temperature stays within 5.015 of
    121, at every simulated hour. *)
Theorem dht22_humidity_against_temperature (v : script) (env : Env)
        (id : string) (w : World)
        (Hd : draws_ok env) (Hc : calibrated (sim w)) :
  exists t h,
    measurement "temperature" (fst (simulate_dht22 v env id w)) = Some t /\
    measurement "humidity" (fst (simulate_dht22 v env id w)) = Some h /\
    Rabs (py_val h + 2 * py_val t - 121) <= 5 + 3 / 200.
Proof.
  destruct (dht22_values v env id w Hc) as [Ht Hh].
  pose proof (temp_variation_bounds (get_time_factor w)) as Hv.
  pose proof (uniform_bounds (-1) 1 (draws env (rng w)) ltac:(lra) (Hd _)) as H1.
  pose proof (uniform_bounds (-3) 3 (draws env (S (rng w))) ltac:(lra) (Hd _))
    as H3.
  rewrite clamp_id in Hh by (cbn; lra).
  eexists _, _. split; [exact Ht|]. split; [exact Hh|].
  cbn [py_round2 py_val].
  pose proof (round2_error (28 + temp_variation (get_time_factor w)
                            + uniform (-1) 1 (draws env (rng w)))) as E1.
  pose proof (round2_error (65 - temp_variation (get_time_factor w) * 2
                            + uniform (-3) 3 (draws env (S (rng w))))) as E2.
  apply Rabs_le. apply Rabs_le_bounds in E1, E2. lra.
Qed.

Lemma dht22_humidity_against_temperature_witness :
  draws_ok env_quiet /\ calibrated (sim (world_at 720)) /\
  exists t h,
    measurement "temperature"
      (fst (simulate_dht22 Sim env_quiet "DHT22-001" (world_at 720))) = Some t /\
    measurement "humidity"
      (fst (simulate_dht22 Sim env_quiet "DHT22-001" (world_at 720))) = Some h /\
    Rabs (py_val h + 2 * py_val t - 121) <= 5 + 3 / 200.
Proof.
  assert (Hd : draws_ok env_quiet) by (intros i; cbn; lra).
  assert (Hc : calibrated (sim (world_at 720))) by (split; reflexivity).
  split; [exact Hd|]. split; [exact Hc|].
  exact (dht22_humidity_against_temperature Sim env_quiet "DHT22-001"
                                            (world_at 720) Hd Hc).
Defined.

(** X6. Each published soil moisture, light intensity and pH is within
    0.005 of the state scalar the instance keeps after the step. *)
Theorem published_close_to_state (v : script) (env : Env) (id : string)
        (w : World) :
  (let r := simulate_soil_moisture v env id w in
   exists a, measurement "soilMoisture" (fst r) = Some a /\
             Rabs (py_val a - py_val (soil_moisture (sim (snd r)))) <= 1 / 200) /\
  (let r := simulate_light_sensor v env id w in
   exists a, measurement "lightIntensity" (fst r) = Some a /\
             Rabs (py_val a - py_val (light_intensity (sim (snd r)))) <= 1 / 200) /\
  (let r := simulate_ph_sensor v env id w in
   exists a, measurement (ph_field v) (fst r) = Some a /\
             Rabs (py_val a - py_val (ph_level (sim (snd r)))) <= 1 / 200).
Proof.
  cbv zeta. split; [|split].
  - destruct (soil_moisture_reading v env id w) as (a & Ha & -> & _).
    eexists. split; [exact Ha | apply py_round2_error].
  - destruct (light_reading v env id w) as (a & Ha & -> & _).
    eexists. split; [exact Ha | apply py_round2_error].
  - destruct (ph_reading v env id w) as (a & Ha & -> & _).
    eexists. split; [exact Ha | apply py_round2_error].
Qed.

(** ** Steps of the state scalars *)

Lemma clamp_R_cases (lo hi x : R) :
  lo <= hi ->
  lo <= Rmax lo (Rmin hi x) <= hi /\
  (x <= lo -> Rmax lo (Rmin hi x) = lo) /\
  (hi <= x -> Rmax lo (Rmin hi x) = hi) /\
  (lo <= x <= hi -> Rmax lo (Rmin hi x) = x).
Proof.
  intros H. unfold Rmax, Rmin.
  destruct (Rle_dec hi x); destruct (Rle_dec lo _); repeat split; intros; lra.
Qed.

Lemma simulate_ph_sensor_state v env id w :
  ph_level (sim (snd (simulate_ph_sensor v env id w)))
  = clamp_ph (PyFloat (py_val (ph_level (sim w))
                       + uniform (- (2 / 100)) (2 / 100) (draws env (rng w)))).
Proof. reflexivity. Qed.

(** X7. The pH walks slowly: from a pH within [5.5, 7.5] and with a draw
    in [0, 1), one call of [simulate_ph_sensor] moves the state by at most
    0.02, and the state stays a float. *)
Theorem ph_walk_step (v : script) (env : Env) (id : string) (w : World)
        (Hd : draws_ok env)
        (Hs : 55 / 10 <= py_val (ph_level (sim w)) <= 75 / 10) :
  let w' := snd (simulate_ph_sensor v env id w) in
  Rabs (py_val (ph_level (sim w')) - py_val (ph_level (sim w))) <= 2 / 100 /\
  is_float (ph_level (sim w')) = true.
Proof.
  cbv zeta. rewrite simulate_ph_sensor_state.
  pose proof (uniform_bounds (- (2 / 100)) (2 / 100) (draws env (rng w))
                ltac:(lra) (Hd _)) as Hu.
  split; [|now apply clamp_ph_float].
  unfold clamp_ph. rewrite clamp_val by (cbn; lra). cbn [py_val].
  apply Rabs_le. unfold Rmax, Rmin.
  destruct (Rle_dec (75 / 10) _); destruct (Rle_dec (55 / 10) _); lra.
Qed.

Lemma ph_walk_step_witness :
  draws_ok env_irrigate /\
  55 / 10 <= py_val (ph_level (sim (world_at 0))) <= 75 / 10 /\
  Rabs (py_val (ph_level
                  (sim (snd (simulate_ph_sensor Sim1 env_irrigate "PH-0001"
                                                (world_at 0)))))
        - 13 / 2) <= 2 / 100.
Proof.
  assert (Hd : draws_ok env_irrigate) by (intros [| i]; cbn; lra).
  assert (Hs : 55 / 10 <= py_val (ph_level (sim (world_at 0))) <= 75 / 10)
    by (cbn; lra).
  split; [exact Hd|]. split; [exact Hs|].
  exact (proj1 (ph_walk_step Sim1 env_irrigate "PH-0001" (world_at 0) Hd Hs)).
Defined.

(** X8. Soil moisture moves in bounded steps: from a value within
    [20, 70] and with draws in [0, 1), one call of
    [simulate_soil_moisture] lowers the state by at most 0.15 and raises
    it by at most 24.95; when the irrigation event fires the state does
    not fall, and it reaches 70 or gains at least 14.85. *)
Theorem soil_step_bounds (v : script) (env : Env) (id : string) (w : World)
        (Hd : draws_ok env)
        (Hs : 20 <= py_val (soil_moisture (sim w)) <= 70) :
  let s := py_val (soil_moisture (sim w)) in
  let s' := py_val (soil_moisture (sim (snd (simulate_soil_moisture v env id w)))) in
  s - 15 / 100 <= s' <= s + 2495 / 100 /\
  (fst (soil_update env w) = true -> s <= s' /\ Rmin 70 (s + 1485 / 100) <= s').
Proof.
  cbv zeta. rewrite simulate_soil_moisture_clamps.
  pose proof (uniform_bounds (5 / 100) (15 / 100) (draws env (rng w))
                ltac:(lra) (Hd _)) as Hdecay.
  pose proof (uniform_bounds 15 25 (draws env (S (S (rng w))))
                ltac:(lra) (Hd _)) as Hjump.
  unfold clamp_soil. rewrite clamp_val by (cbn; lra). cbn [py_val].
  pose proof (Rmin_l 70 (py_val (soil_moisture (sim w)) + 1485 / 100)) as M1.
  pose proof (Rmin_r 70 (py_val (soil_moisture (sim w)) + 1485 / 100)) as M2.
  destruct (fst (soil_update env w)) eqn:F.
  - rewrite (soil_update_jump _ _ F).
    match goal with
    | |- context [Rmax 20 (Rmin 70 ?p)] =>
        destruct (clamp_R_cases 20 70 p ltac:(lra)) as (Hc & H1 & H2 & H3);
        destruct (Rle_dec 70 p) as [Hp | Hp];
        [rewrite (H2 Hp) | rewrite H3 by lra]
    end; repeat split; intros; lra.
  - rewrite (soil_update_quiet _ _ F).
    match goal with
    | |- context [Rmax 20 (Rmin 70 ?p)] =>
        destruct (clamp_R_cases 20 70 p ltac:(lra)) as (Hc & H1 & H2 & H3);
        destruct (Rle_dec p 20) as [Hp | Hp];
        [rewrite (H1 Hp) | rewrite H3 by lra]
    end; repeat split; intros; try discriminate; lra.
Qed.

Lemma soil_step_bounds_witness :
  draws_ok env_irrigate /\
  20 <= py_val (soil_moisture (sim (world_at 0))) <= 70 /\
  fst (soil_update env_irrigate (world_at 0)) = true /\
  50 <= py_val (soil_moisture
                  (sim (snd (simulate_soil_moisture Sim env_irrigate "SOIL-001"
                                                    (world_at 0))))).
Proof.
  assert (Hd : draws_ok env_irrigate) by (intros [| i]; cbn; lra).
  assert (Hs : 20 <= py_val (soil_moisture (sim (world_at 0))) <= 70)
    by (cbn; lra).
  assert (Hf : fst (soil_update env_irrigate (world_at 0)) = true).
  { rewrite soil_update_fired. cbn. unfold Rltb.
    destruct (Rlt_dec 0 (2 / 100)); [reflexivity | lra]. }
  split; [exact Hd|]. split; [exact Hs|]. split; [exact Hf|].
  exact (proj1 (proj2 (soil_step_bounds Sim env_irrigate "SOIL-001" (world_at 0)
                                        Hd Hs) Hf)).
Defined.

Lemma soil_update_float env w :
  exists x, soil_moisture (sim (snd (soil_update env w))) = PyFloat x.
Proof.
  unfold soil_update. cbn [random].
  destruct (Rltb _ _); cbn; eexists; reflexivity.
Qed.

Lemma light_update_float env w :
  exists y, light_intensity (sim (light_update env w)) = PyFloat y.
Proof. destruct (light_update_eq env w) as [x ->]. now exists x. Qed.

(** X9. The clamps substitute integer constants.  The published soil
    moisture is the integer 20 when the value before clamping is at most
    20, the integer 70 when it is at least 70, and otherwise the rounded
    float; the published light intensity is the integer 0 when the value
    before [max] is not positive, and otherwise the rounded float. *)
Theorem clamped_values_are_integers (v : script) (env : Env) (id : string)
        (w : World) :
  (exists x,
      soil_moisture (sim (snd (soil_update env w))) = PyFloat x /\
      measurement "soilMoisture" (fst (simulate_soil_moisture v env id w))
      = Some (if Rle_dec x 20 then PyInt 20
              else if Rle_dec 70 x then PyInt 70
                   else PyFloat (round2 x))) /\
  (exists y,
      light_intensity (sim (light_update env w)) = PyFloat y /\
      measurement "lightIntensity" (fst (simulate_light_sensor v env id w))
      = Some (if Rle_dec y 0 then PyInt 0 else PyFloat (round2 y))).
Proof.
  split.
  - destruct (soil_update_float env w) as [x Hx]. exists x. split; [exact Hx|].
    destruct (soil_moisture_reading v env id w) as (a & -> & -> & _).
    rewrite simulate_soil_moisture_clamps, Hx.
    unfold clamp_soil, py_max, py_min. cbn [py_val].
    destruct (Rle_dec x 20); destruct (Rle_dec 70 x);
      destruct (Rlt_dec x 70); try lra;
      destruct (Rgt_dec _ _); cbn [py_val] in *; try lra; reflexivity.
  - destruct (light_update_float env w) as [y Hy]. exists y. split; [exact Hy|].
    destruct (light_reading v env id w) as (a & -> & -> & _).
    unfold simulate_light_sensor.
    cbn [snd set_sim sim set_light_intensity light_intensity].
    rewrite Hy. unfold py_max. cbn [py_val].
    destruct (Rle_dec y 0); destruct (Rgt_dec y 0); try lra; reflexivity.
Qed.

(** X10. With draws in [0, 1) the light intensity, in the state and as
    published, never exceeds 52000; when the simulated hour is before 6
    or after 18 it is at most 100. *)
Theorem light_upper_bounds (v : script) (env : Env) (id : string) (w : World)
        (Hd : draws_ok env) :
  let r := simulate_light_sensor v env id w in
  exists a,
    measurement "lightIntensity" (fst r) = Some a /\
    0 <= py_val a <= 52000 /\
    py_val (light_intensity (sim (snd r))) <= 52000 /\
    (get_time_factor w < 6 \/ 18 < get_time_factor w -> py_val a <= 100).
Proof.
  cbv zeta.
  destruct (light_reading v env id w) as (a & Ha & -> & Hlo & _).
  eexists. split; [exact Ha|].
  unfold simulate_light_sensor in *.
  cbn [snd set_sim sim set_light_intensity light_intensity] in *.
  pose proof (uniform_bounds (-2000) 2000 (draws env (rng w)) ltac:(lra) (Hd _))
    as Hday.
  pose proof (uniform_bounds 0 100 (draws env (rng w)) ltac:(lra) (Hd _))
    as Hnight.
  pose proof (SIN_bound ((get_time_factor w - 6) * PI / 12)) as [_ Hsin].
  assert (Hraw : py_val (py_max (PyInt 0) (light_intensity (sim (light_update env w))))
                 <= 52000 /\
                 (get_time_factor w < 6 \/ 18 < get_time_factor w ->
                  py_val (py_max (PyInt 0)
                            (light_intensity (sim (light_update env w)))) <= 100)).
  { destruct (Rle_dec 6 (get_time_factor w)) as [H6 | H6];
      [destruct (Rle_dec (get_time_factor w) 18) as [H18 | H18]|].
    - rewrite light_update_day by lra. unfold py_max. cbn [py_val].
      destruct (Rgt_dec _ _); cbn [py_val]; split; intros; lra.
    - rewrite light_update_night by lra. unfold py_max. cbn [py_val].
      destruct (Rgt_dec _ _); cbn [py_val]; split; intros; lra.
    - rewrite light_update_night by lra. unfold py_max. cbn [py_val].
      destruct (Rgt_dec _ _); cbn [py_val]; split; intros; lra. }
  destruct Hraw as [H52 H100].
  split; [split; [exact Hlo|]|split; [exact H52|]].
  - apply Rle_trans with (IZR 5200000 / 100); [|lra].
    apply py_round2_le. lra.
  - intros Hn. apply Rle_trans with (IZR 10000 / 100); [|lra].
    apply py_round2_le. specialize (H100 Hn). lra.
Qed.

Lemma light_upper_bounds_witness :
  draws_ok env_quiet /\
  exists a,
    measurement "lightIntensity"
      (fst (simulate_light_sensor Sim env_quiet "LIGHT-001" (world_at 0)))
    = Some a /\ 0 <= py_val a <= 52000.
Proof.
  assert (Hd : draws_ok env_quiet) by (intros i; cbn; lra).
  split; [exact Hd|].
  destruct (light_upper_bounds Sim env_quiet "LIGHT-001" (world_at 0) Hd)
    as (a & Ha & Hb & _).
  exists a. split; [exact Ha | exact Hb].
Defined.

(** ** Frames of the other sensor steps *)

(** X11. Each stateful sensor step assigns its own scalar and nothing
    else: after [simulate_soil_moisture] the instance differs from the one
    before at most in [soil_moisture], after [simulate_light_sensor] at
    most in [light_intensity], after [simulate_ph_sensor] at most in
    [ph_level]; none of them touches the clock, the pending callbacks or
    the message log. *)
Theorem sensor_steps_touch_own_scalar (v : script) (env : Env) (id : string)
        (w : World) :
  (let w' := snd (simulate_soil_moisture v env id w) in
   sim w' = set_soil_moisture (soil_moisture (sim w')) (sim w) /\ same_io w w') /\
  (let w' := snd (simulate_light_sensor v env id w) in
   sim w' = set_light_intensity (light_intensity (sim w')) (sim w) /\
   same_io w w') /\
  (let w' := snd (simulate_ph_sensor v env id w) in
   sim w' = set_ph_level (ph_level (sim w')) (sim w) /\ same_io w w').
Proof.
  cbv zeta. split; [|split]; split.
  - destruct (simulate_soil_moisture_sim v env id w) as (x & -> & _). reflexivity.
  - apply simulate_soil_moisture_io.
  - destruct (simulate_light_sensor_sim v env id w) as (x & -> & _). reflexivity.
  - apply simulate_light_sensor_io.
  - destruct (simulate_ph_sensor_sim v env id w) as (x & -> & _). reflexivity.
  - apply simulate_ph_sensor_io.
Qed.

(** ** The optional [farmId] field *)

Lemma with_farm_farm (v : script) (d : pydict) :
  dict_get "farmId" d = None -> dict_get "farmId" (with_farm v d) = farm_of v.
Proof. intros H. destruct v; [exact H | reflexivity]. Qed.

(** X12. [sensor_simulator.py] never sends a [farmId].
    [sensor_simulator1.py] sends [farmId = 1] in every DHT22, soil
    moisture and light reading and in every status message, but not in a
    pH reading. *)
Theorem farm_id_schema (v : script) (env : Env) (id status : string)
        (w : World) :
  dict_get "farmId" (fst (simulate_dht22 v env id w)) = farm_of v /\
  dict_get "farmId" (fst (simulate_soil_moisture v env id w)) = farm_of v /\
  dict_get "farmId" (fst (simulate_light_sensor v env id w)) = farm_of v /\
  dict_get "farmId" (fst (simulate_ph_sensor v env id w)) = None /\
  (exists m, sent (publish_device_status v id status w) = (sent w ++ [m])%list /\
             dict_get "farmId" (payload m) = farm_of v) /\
  farm_of Sim = None /\ farm_of Sim1 = Some (JNum (PyInt 1)).
Proof.
  split; [|split; [|split; [|split; [|split; [|split; reflexivity]]]]].
  - unfold simulate_dht22. cbn [random fst]. now apply with_farm_farm.
  - unfold simulate_soil_moisture. destruct (soil_update env w). cbn [fst].
    now apply with_farm_farm.
  - unfold simulate_light_sensor. cbn [fst]. now apply with_farm_farm.
  - unfold simulate_ph_sensor. cbn [random fst]. now destruct v.
  - eexists. split; [reflexivity|]. cbn [payload]. now apply with_farm_farm.
Qed.

(** ** The loop and the connection flag *)

Lemma get_time_factor_with_connected b w :
  get_time_factor (with_connected b w) = get_time_factor w.
Proof. reflexivity. Qed.

Lemma soil_update_with_connected env b w :
  soil_update env (with_connected b w)
  = (fst (soil_update env w), with_connected b (snd (soil_update env w))).
Proof.
  unfold soil_update. cbn [random with_connected set_sim rng].
  destruct (Rltb _ _); reflexivity.
Qed.

Lemma light_update_with_connected env b w :
  light_update env (with_connected b w) = with_connected b (light_update env w).
Proof.
  unfold light_update. rewrite get_time_factor_with_connected.
  destruct (Rle_dec 6 _); [destruct (Rle_dec _ 18)|]; reflexivity.
Qed.

Lemma simulate_device_with_connected v env d b w :
  simulate_device v env d (with_connected b w)
  = match simulate_device v env d w with
    | Some (r, w') => Some (r, with_connected b w')
    | None => None
    end.
Proof.
  unfold simulate_device.
  destruct (String.eqb _ "DHT22"); [reflexivity|].
  destruct (String.eqb _ "SOIL_MOISTURE").
  { unfold simulate_soil_moisture. rewrite soil_update_with_connected.
    destruct (soil_update env w). reflexivity. }
  destruct (String.eqb _ "LIGHT").
  { unfold simulate_light_sensor. rewrite light_update_with_connected.
    reflexivity. }
  destruct (String.eqb _ "PH"); reflexivity.
Qed.

Lemma tick_device_with_connected v env b w d :
  tick_device v env (with_connected b w) d
  = with_connected b (tick_device v env w d).
Proof.
  unfold tick_device. rewrite simulate_device_with_connected.
  destruct (simulate_device v env d w) as [[r w'] |]; reflexivity.
Qed.

(** X13. The pass over the devices never consults the connection flag:
    run with the flag overwritten (as [on_disconnect] or [on_connect]
    leaves it), it hands the client the same messages, consumes the same
    draws and leaves the same state scalars. *)
Theorem tick_ignores_connection_flag (v : script) (env : Env)
        (devices : list Device) (b : bool) (w : World) :
  tick_devices v env devices (with_connected b w)
  = with_connected b (tick_devices v env devices w) /\
  sent (tick_devices v env devices (with_connected b w))
  = sent (tick_devices v env devices w) /\
  rng (tick_devices v env devices (with_connected b w))
  = rng (tick_devices v env devices w).
Proof.
  assert (H : forall w0, tick_devices v env devices (with_connected b w0)
                         = with_connected b (tick_devices v env devices w0)).
  { unfold tick_devices. induction devices as [| d ds IH]; intros w0;
      cbn [fold_left]; [reflexivity|].
    now rewrite tick_device_with_connected, IH. }
  rewrite H. repeat split.
Qed.

(** ** A connection the broker accepts in time *)

Lemma still_waiting_early v start w :
  connected (sim w) = false -> now w - start < 10 ->
  still_waiting v start w = true.
Proof.
  intros Hc Ht. unfold still_waiting, timeout, Rltb. rewrite Hc.
  destruct v; destruct (Rlt_dec _ _); try reflexivity; exfalso; lra.
Qed.

Lemma wait_connected_done v env start n w :
  still_waiting v start w = false ->
  wait_connected (S n) v env start w = Some w.
Proof. intros H. cbn [wait_connected]. now rewrite H. Qed.

Lemma sleep_loop_running env d w :
  loop_running (sleep env d w) = loop_running w.
Proof.
  unfold sleep. destruct (loop_running w); [|reflexivity].
  destruct (deliver _ _ _). reflexivity.
Qed.

(** One sleep while the acceptance is pending: either it is delivered, or
    it is still pending and not yet due. *)
Lemma sleep_pending_accept env d tc w :
  loop_running w = true -> pending w = [(tc, OnConnect 0)] ->
  connected (sim w) = false ->
  connected (sim (sleep env d w)) = true \/
  (connected (sim (sleep env d w)) = false /\
   pending (sleep env d w) = [(tc, OnConnect 0)] /\
   now (sleep env d w) < tc).
Proof.
  intros Hl Hp Hc. unfold sleep. rewrite Hl, Hp. cbn [deliver].
  destruct (Rle_dec tc _) as [Hdue | Hlater].
  - left. reflexivity.
  - right. cbn. repeat split; [exact Hc | lra].
Qed.

Lemma wait_connected_accepts v env start tc eps T0 fuel :
  (forall i, overshoot env i <= eps) -> tc < start + 10 ->
  forall w w2,
    wait_connected fuel v env start w = Some w2 ->
    loop_running w = true ->
    (connected (sim w) = true /\ (now w <= T0 \/ now w < tc + 1 / 10 + eps)) \/
    (connected (sim w) = false /\ pending w = [(tc, OnConnect 0)] /\ now w < tc) ->
    connected (sim w2) = true /\ (now w2 <= T0 \/ now w2 < tc + 1 / 10 + eps).
Proof.
  intros He Htc. induction fuel as [| fuel IH]; intros w w2 H Hl Hst;
    [discriminate|].
  cbn [wait_connected] in H.
  destruct (still_waiting v start w) eqn:E.
  - destruct Hst as [[Hc _] | (Hc & Hp & Hn)].
    { unfold still_waiting in E. rewrite Hc in E. discriminate. }
    apply (IH _ _ H); [now rewrite sleep_loop_running|].
    destruct (sleep_pending_accept env (1 / 10) tc w Hl Hp Hc)
      as [Hacc | Hpend].
    + left. split; [exact Hacc|]. right.
      rewrite sleep_now. specialize (He (naps w)). lra.
    + right. exact Hpend.
  - injection H as <-.
    destruct Hst as [Hdone | (Hc & Hp & Hn)]; [exact Hdone|].
    rewrite still_waiting_early in E by (assumption || lra). discriminate.
Qed.

(** X14. When [client.connect] does not raise, the flag is down and the
    only pending callback accepts the connection ([rc = 0]) before the
    deadline of 10 seconds, [connect] returns [True] (101 passes of the
    waiting loop are enough); it publishes nothing, and it returns at once
    if the acceptance is already due, otherwise within one polling
    interval and one overshoot after the acceptance. *)
Theorem connect_succeeds_when_accepted (v : script) (env : Env) (w : World)
        (fuel : nat) (tc eps : R)
        (Ho : overshoot_ok env) (He : forall i, overshoot env i <= eps)
        (Hf : (101 <= fuel)%nat)
        (Hr : connect_raises env = false)
        (Hc : connected (sim w) = false)
        (Hp : pending w = [(tc, OnConnect 0)])
        (Htc : tc < now w + 10) :
  exists w1,
    connect fuel v env w = Some (true, w1) /\
    sent w1 = sent w /\
    loop_running w1 = true /\
    (now w1 = now w \/ now w1 < tc + 1 / 10 + eps) /\
    (tc <= now w -> now w1 = now w /\ naps w1 = naps w).
Proof.
  unfold connect. rewrite Hr.
  destruct (client_loop_start_fields w) as (Hnow & Hrng & Hnaps & Hsent).
  assert (Hstart :
            loop_running (client_loop_start w) = true /\
            ((connected (sim (client_loop_start w)) = true /\ tc <= now w) \/
             (connected (sim (client_loop_start w)) = false /\
              pending (client_loop_start w) = [(tc, OnConnect 0)] /\
              now w < tc))).
  { unfold client_loop_start. rewrite Hp. cbn [deliver].
    destruct (Rle_dec tc (now w)) as [Hdue | Hlater]; cbn.
    - split; [reflexivity|]. left. split; [reflexivity | exact Hdue].
    - split; [reflexivity|]. right. repeat split; [exact Hc | lra]. }
  set (w0 := client_loop_start w) in *.
  destruct Hstart as [Hl Hst].
  destruct (wait_connected_terminates v env (now w0) 100 Ho w0) as [w2 Hw2].
  { cbn. lra. }
  pose proof (wait_connected_more_fuel _ _ _ _ _ _ Hw2 fuel Hf) as Hfuel.
  destruct (wait_connected_spec _ _ _ _ _ _ Hw2) as (Hs & _).
  destruct (wait_connected_accepts v env (now w0) tc eps (now w) 101 He
              ltac:(lra) _ _ Hw2 Hl) as [Hacc Htime].
  { destruct Hst as [[Hc0 Hdue] | (Hc0 & Hp0 & Hn0)].
    - left. split; [exact Hc0|]. left. lra.
    - right. repeat split; [exact Hc0 | exact Hp0 | lra]. }
  rewrite Hfuel, Hacc. exists w2. split; [reflexivity|].
  split; [congruence|].
  assert (Hrun : forall f x y, wait_connected f v env (now w0) x = Some y ->
                               loop_running y = loop_running x).
  { induction f as [| f IH]; intros x y Hxy; [discriminate|].
    cbn [wait_connected] in Hxy. destruct (still_waiting v (now w0) x).
    - rewrite (IH _ _ Hxy). apply sleep_loop_running.
    - now injection Hxy as <-. }
  split; [rewrite (Hrun _ _ _ Hw2); exact Hl|].
  split.
  - destruct Htime as [Hle | Hlt]; [|now right].
    left. apply Rle_antisym; [exact Hle|].
    assert (Hmono : forall f x y, wait_connected f v env (now w0) x = Some y ->
                                  now x <= now y).
    { induction f as [| f IH]; intros x y Hxy; [discriminate|].
      cbn [wait_connected] in Hxy. destruct (still_waiting v (now w0) x).
      - apply Rle_trans with (now (sleep env (1 / 10) x)); [|exact (IH _ _ Hxy)].
        rewrite sleep_now. specialize (Ho (naps x)). lra.
      - injection Hxy as <-. lra. }
    rewrite <- Hnow. exact (Hmono _ _ _ Hw2).
  - intros Hdue.
    destruct Hst as [[Hc0 _] | (_ & _ & Hn0)]; [|exfalso; lra].
    rewrite wait_connected_done in Hw2
      by (unfold still_waiting; now rewrite Hc0).
    injection Hw2 as <-. split; [exact Hnow | exact Hnaps].
Qed.

Lemma connect_succeeds_when_accepted_witness :
  overshoot_ok env_quiet /\ (101 <= 101)%nat /\
  pending world_slow_accept = [(1 / 4, OnConnect 0)] /\
  exists w1,
    connect 101 Sim1 env_quiet world_slow_accept = Some (true, w1) /\
    sent w1 = [] /\ (now w1 = 0 \/ now w1 < 1 / 4 + 1 / 10 + 0).
Proof.
  assert (Ho : overshoot_ok env_quiet) by (intros i; cbn; lra).
  assert (He : forall i, overshoot env_quiet i <= 0) by (intros i; cbn; lra).
  assert (Hf : (101 <= 101)%nat) by lia.
  split; [exact Ho|]. split; [exact Hf|]. split; [reflexivity|].
  destruct (connect_succeeds_when_accepted Sim1 env_quiet world_slow_accept
              101 (1 / 4) 0 Ho He Hf eq_refl eq_refl eq_refl)
    as (w1 & Hc & Hs & _ & Ht & _).
  { cbn. lra. }
  exists w1. split; [exact Hc|]. split; [exact Hs | exact Ht].
Defined.

(** ** The invariant of a run *)



(** ** Consumption of the random stream *)

Lemma soil_update_rng env w :
  rng (snd (soil_update env w))
  = (rng w + if fst (soil_update env w) then 3 else 2)%nat.
Proof.
  unfold soil_update. cbn [random rng set_sim].
  destruct (Rltb _ _); cbn; lia.
Qed.

Lemma simulate_device_rng v env d w r w' :
  simulate_device v env d w = Some (r, w') ->
  (rng w + 1 <= rng w' <= rng w + 3)%nat.
Proof.
  unfold simulate_device. intros H.
  repeat match type of H with
         | (if ?c then _ else _) = _ => destruct c
         end; try discriminate;
    apply (f_equal (option_map snd)) in H; cbn [option_map snd] in H;
    injection H as H; rewrite <- H.
  - cbn. lia.
  - change (rng w + 1 <= rng (snd (simulate_soil_moisture v env (dev_id d) w))
            <= rng w + 3)%nat.
    unfold simulate_soil_moisture.
    pose proof (soil_update_rng env w) as Hr.
    destruct (soil_update env w) as [[] w1]; cbn in *; lia.
  - change (rng w + 1 <= rng (snd (simulate_light_sensor v env (dev_id d) w))
            <= rng w + 3)%nat.
    unfold simulate_light_sensor.
    destruct (light_update_eq env w) as [x ->]. cbn. lia.
  - cbn. lia.
Qed.

(** X16. Every reading is made from fresh draws: [simulate_dht22]
    consumes two draws of the random stream, [simulate_soil_moisture] two
    and a third exactly when the irrigation event fires,
    [simulate_light_sensor] and [simulate_ph_sensor] one each; a pass over
    the roster consumes at least one and at most three draws per device of
    a known kind and never moves the cursor back. *)
Theorem draws_consumed (v : script) (env : Env) (id : string)
        (devices : list Device) (w : World) :
  rng (snd (simulate_dht22 v env id w)) = (rng w + 2)%nat /\
  rng (snd (simulate_soil_moisture v env id w))
  = (rng w + if fst (soil_update env w) then 3 else 2)%nat /\
  rng (snd (simulate_light_sensor v env id w)) = (rng w + 1)%nat /\
  rng (snd (simulate_ph_sensor v env id w)) = (rng w + 1)%nat /\
  (rng w + List.length (served devices)
   <= rng (tick_devices v env devices w)
   <= rng w + 3 * List.length (served devices))%nat.
Proof.
  split; [cbn; lia|]. split; [|split; [|split; [cbn; lia|]]].
  - unfold simulate_soil_moisture.
    pose proof (soil_update_rng env w) as Hr.
    destruct (soil_update env w) as [fired w1]. cbn in *. exact Hr.
  - unfold simulate_light_sensor.
    destruct (light_update_eq env w) as [x ->]. cbn. lia.
  - unfold tick_devices, served. revert w.
    induction devices as [| d ds IH]; intros w; cbn [fold_left filter];
      [cbn; lia|].
    specialize (IH (tick_device v env w d)).
    unfold tick_device in *.
    destruct (is_known d) eqn:K.
    + apply is_known_spec in K.
      destruct (simulate_device_known v env d w K) as (r & w' & E & _).
      rewrite E in *.
      pose proof (simulate_device_rng _ _ _ _ _ _ E) as Hr.
      cbn [List.length] in *. cbn [publish_sensor_data client_publish rng] in IH.
      lia.
    + rewrite simulate_device_unknown in *
        by (intros H; apply is_known_spec in H; congruence).
      exact IH.
Qed.

(** ** The daily profile of the DHT22 reading *)

Lemma temp_variation_noon : temp_variation 12 = 5.
Proof.
  unfold temp_variation.
  replace ((12 - 6) * PI / 12) with (PI / 2) by field.
  rewrite sin_PI2. lra.
Qed.

Lemma temp_variation_midnight : temp_variation 0 = -5.
Proof.
  unfold temp_variation.
  replace ((0 - 6) * PI / 12) with (- (PI / 2)) by field.
  rewrite sin_neg, sin_PI2. lra.
Qed.

(** X17. The DHT22 reading is warmest and driest at simulated noon and
    coldest and dampest at simulated midnight: at hour 12 the temperature
    lies in [32, 34] and the humidity in [52, 58]; at hour 0 the
    temperature lies in [22, 24] and the humidity in [72, 78] (state with
    the base values of [__init__], draws in [0, 1)). *)
Theorem dht22_daily_extremes (v : script) (env : Env) (id : string)
        (w : World) (Hd : draws_ok env) (Hc : calibrated (sim w)) :
  exists t h,
    measurement "temperature" (fst (simulate_dht22 v env id w)) = Some t /\
    measurement "humidity" (fst (simulate_dht22 v env id w)) = Some h /\
    (get_time_factor w = 12 ->
     32 <= py_val t <= 34 /\ 52 <= py_val h <= 58) /\
    (get_time_factor w = 0 ->
     22 <= py_val t <= 24 /\ 72 <= py_val h <= 78).
Proof.
  destruct (dht22_values v env id w Hc) as [Ht Hh].
  pose proof (temp_variation_bounds (get_time_factor w)) as Hv.
  pose proof (uniform_bounds (-1) 1 (draws env (rng w)) ltac:(lra) (Hd _)) as H1.
  pose proof (uniform_bounds (-3) 3 (draws env (S (rng w))) ltac:(lra) (Hd _))
    as H3.
  rewrite clamp_id in Hh by (cbn; lra).
  eexists _, _. split; [exact Ht|]. split; [exact Hh|].
  cbn [py_round2 py_val]. split; intros Hhour; rewrite Hhour in *.
  - rewrite temp_variation_noon in *. repeat split.
    + replace 32 with (IZR 3200 / 100) by lra. apply round2_ge. lra.
    + replace 34 with (IZR 3400 / 100) by lra. apply round2_le. lra.
    + replace 52 with (IZR 5200 / 100) by lra. apply round2_ge. lra.
    + replace 58 with (IZR 5800 / 100) by lra. apply round2_le. lra.
  - rewrite temp_variation_midnight in *. repeat split.
    + replace 22 with (IZR 2200 / 100) by lra. apply round2_ge. lra.
    + replace 24 with (IZR 2400 / 100) by lra. apply round2_le. lra.
    + replace 72 with (IZR 7200 / 100) by lra. apply round2_ge. lra.
    + replace 78 with (IZR 7800 / 100) by lra. apply round2_le. lra.
Qed.

Lemma dht22_daily_extremes_witness :
  draws_ok env_quiet /\ calibrated (sim (world_at 720)) /\
  get_time_factor (world_at 720) = 12 /\
  exists t,
    measurement "temperature"
      (fst (simulate_dht22 Sim env_quiet "DHT22-001" (world_at 720))) = Some t /\
    32 <= py_val t <= 34.
Proof.
  assert (Hd : draws_ok env_quiet) by (intros i; cbn; lra).
  assert (Hc : calibrated (sim (world_at 720))) by (split; reflexivity).
  assert (Hnoon : get_time_factor (world_at 720) = 12).
  { unfold get_time_factor. cbn [world_at now sim init_sim start_time].
    rewrite hour_of_day_first_day; lra. }
  split; [exact Hd|]. split; [exact Hc|]. split; [exact Hnoon|].
  destruct (dht22_daily_extremes Sim env_quiet "DHT22-001" (world_at 720) Hd Hc)
    as (t & h & Ht & _ & H12 & _).
  exists t. split; [exact Ht | exact (proj1 (H12 Hnoon))].
Defined.
